(** * GoogleCloudStorageHook: a shallow embedding of
      [airflow/contrib/hooks/gcs_hook.py]

    The hook is a thin client over the Cloud Storage JSON API.  Every method
    obtains a service object with [get_conn], issues one request (the listing
    issues one per page) and interprets the outcome.  The remote service, the
    local file system and the authorisation machinery are collaborators of the
    hook: they are kept abstract in the class [Backend], and the hook is
    written once, over any backend, in a state-and-exception monad.  An
    in-memory store ([mem_backend]) gives the collaborators a concrete
    reading where a statement is about the service itself. *)

From Stdlib Require Import ZArith Lia.
From stdpp Require Import base strings gmap list.

Local Open Scope Z_scope.
Local Open Scope string_scope.

(** ** Python values that cross the hook's boundary *)

(** Exceptions.  The hook only ever inspects [googleapiclient.errors.HttpError],
    whose [resp['status']] is the status line as text (['404']); every other
    exception class is opaque to it and is carried by name. *)
Inductive exn : Type :=
| HttpError (status : string)
| PyError (cls : string).

Inductive result (A : Type) : Type :=
| Ok (a : A)
| Raise (e : exn).
Arguments Ok {A} a.
Arguments Raise {A} e.

(** What [get_media(...).execute()] hands back: raw [bytes], or decoded text
    for some content types. *)
Inductive payload : Type :=
| PBytes (b : list Byte.byte)
| PText (s : string).

Definition is_bytes (p : payload) : bool :=
  match p with PBytes _ => true | PText _ => false end.

(** [MediaFileUpload(filename, mime_type)]: the bytes of the local file and
    the MIME type they are sent with. *)
Record media : Type := MediaFileUpload_ {
  media_body : list Byte.byte;
  media_mimetype : string
}.

(** An object resource is a JSON object of text fields ([name], [updated],
    ...); Python sees it as a dict. *)
Abbreviation resource := (gmap string string).

(** One page of [objects().list]: both fields may be missing from the
    response; an entry of [items] may be [null]. *)
Record list_response : Type := ListResponse {
  items : option (list (option resource));
  nextPageToken : option string
}.

(** The requests the hook builds, with the keyword arguments it passes. *)
Inductive request : Type :=
| ObjectsGet (bucket object : string)
| ObjectsGetMedia (bucket object : string)
| ObjectsInsert (bucket name : string) (body : media)
| ObjectsDelete (bucket object : string) (generation : option string)
| ObjectsList (bucket : string) (versions : option bool)
              (maxResults : option Z) (pageToken : option string)
              (prefix : option string).

Inductive write_mode : Type := WB | W.

(** ** The collaborators *)

(** [svc_*] is [request.execute()] for each kind of request; [authorize] is
    [self._authorize()] followed by [build('storage', 'v1', ...)]; the two
    file operations are [open(...)]/[write] under [with] and the read that
    [MediaFileUpload] performs.  Each may raise and each may change the
    backend. *)
Class Backend (B : Type) : Type := {
  authorize : B → result unit * B;
  svc_get : string → string → B → result resource * B;
  svc_get_media : string → string → B → result payload * B;
  svc_insert : string → string → media → B → result resource * B;
  svc_delete : string → string → option string → B → result unit * B;
  svc_list : string → option bool → option Z → option string → option string →
             B → result list_response * B;
  file_read : string → B → result (list Byte.byte) * B;
  file_write : string → write_mode → payload → B → result unit * B
}.

(** What the hook did to its collaborators, oldest first. *)
Inductive event : Type :=
| Sent (r : request)
| Wrote (path : string) (mode : write_mode) (data : payload).

Record World (B : Type) : Type := mkWorld {
  backend : B;
  trace : list event
}.
Arguments mkWorld {B} backend trace.
Arguments backend {B} w.
Arguments trace {B} w.

(** ** Timestamps *)

(** A [datetime]: the wall-clock reading in microseconds since the epoch and,
    when the value is timezone-aware, the UTC offset of its [tzinfo] in
    microseconds. *)
Record datetime : Type := mkDatetime {
  wall : Z;
  tzinfo : option Z
}.

(** [dateutil.tz.tzutc()] *)
Definition tzutc : Z := 0.

(** [ts.replace(tzinfo=tz)] *)
Definition replace_tzinfo (ts : datetime) (tz : Z) : datetime :=
  {| wall := wall ts; tzinfo := Some tz |}.

(** [a > b] on datetimes: naive values compare by wall clock, aware values
    by instant, and comparing a naive with an aware value is a [TypeError]. *)
Definition datetime_gt (a b : datetime) : result bool :=
  match tzinfo a, tzinfo b with
  | None, None => Ok (bool_decide (wall b < wall a))
  | Some oa, Some ob => Ok (bool_decide (wall b - ob < wall a - oa))
  | _, _ => Raise (PyError "TypeError")
  end.

(** ** The monad of the hook *)

Section Hook.
Context {B : Type}.

(** A computation of the hook: it runs in a world, returns or raises, and
    leaves a world behind (also when it raises). *)
Definition M (A : Type) : Type := World B → result A * World B.

#[export] Instance M_ret : MRet M := λ A a w, (Ok a, w).

#[export] Instance M_bind : MBind M := λ A C k m w,
  match m w with
  | (Ok a, w') => k a w'
  | (Raise e, w') => (Raise e, w')
  end.

Definition raise {A} (e : exn) : M A := λ w, (Raise e, w).

(** [try: m  except errors.HttpError as ex: h ex.resp['status']]; any other
    exception passes through. *)
Definition try_except_HttpError {A} (m : M A) (h : string → M A) : M A :=
  λ w, match m w with
       | (Ok a, w') => (Ok a, w')
       | (Raise (HttpError status), w') => h status w'
       | (Raise e, w') => (Raise e, w')
       end.

(** A pure computation that may raise. *)
Definition lift {A} (r : result A) : M A := λ w, (r, w).

(** Run an operation of the backend. *)
Definition call {A} (op : B → result A * B) : M A :=
  λ w, let '(r, b') := op (backend w) in (r, mkWorld b' (trace w)).

Definition log_event (e : event) : M unit :=
  λ w, (Ok tt, mkWorld (backend w) (trace w ++ [e])).

End Hook.

(** ** Truthiness *)

(** [bool(s)] for a [str]. *)
Definition truthy_str (s : string) : bool := bool_decide (s ≠ "").

(** [bool(filename)] for the [filename] argument of [download], which is
    [False] when not given ([None] here) and a path otherwise. *)
Definition truthy_filename (filename : option string) : bool :=
  match filename with
  | None => false
  | Some path => truthy_str path
  end.

(** [bool(item)] for an entry of [items]: [None] and the empty dict are
    falsy. *)
Definition truthy_item (item : option resource) : bool :=
  match item with
  | None => false
  | Some d => bool_decide (d ≠ ∅)
  end.

(** ** The hook *)

Module GoogleCloudStorageHook.
Section Methods.
Context {B : Type} `{Backend B}.

(** [dateutil.parser.parse]: outside the repository, so a parameter of the
    hook; it raises on text that is not a date. *)
Context (dateutil_parse : string → result datetime).

(** [self.get_conn()] *)
Definition get_conn : M (B:=B) unit := call authorize.

(** [service.objects().<method>(...).execute()]: the request goes on the
    trace, then the service answers. *)
Definition objects_get (bucket object : string) : M resource :=
  log_event (Sent (ObjectsGet bucket object));;
  call (svc_get bucket object).

Definition objects_get_media (bucket object : string) : M payload :=
  log_event (Sent (ObjectsGetMedia bucket object));;
  call (svc_get_media bucket object).

Definition objects_insert (bucket name : string) (body : media) : M resource :=
  log_event (Sent (ObjectsInsert bucket name body));;
  call (svc_insert bucket name body).

Definition objects_delete (bucket object : string) (generation : option string)
  : M unit :=
  log_event (Sent (ObjectsDelete bucket object generation));;
  call (svc_delete bucket object generation).

Definition objects_list (bucket : string) (versions : option bool)
    (maxResults : option Z) (pageToken prefix : option string)
  : M list_response :=
  log_event (Sent (ObjectsList bucket versions maxResults pageToken prefix));;
  call (svc_list bucket versions maxResults pageToken prefix).

(** [with open(filename, mode) as file_fd: file_fd.write(data)] *)
Definition open_write (filename : string) (mode : write_mode) (data : payload)
  : M unit :=
  log_event (Wrote filename mode data);;
  call (file_write filename mode data).

(** [MediaFileUpload(filename, mime_type)] reads the local file. *)
Definition MediaFileUpload (filename mime_type : string) : M media :=
  body ← call (file_read filename);
  mret (MediaFileUpload_ body mime_type).

(** <<
    def download(self, bucket, object, filename=False):
        service = self.get_conn()
        downloaded_file_bytes = service.objects() \
            .get_media(bucket=bucket, object=object).execute()
        if filename:
            write_argument = 'wb' if isinstance(downloaded_file_bytes, bytes) else 'w'
            with open(filename, write_argument) as file_fd:
                file_fd.write(downloaded_file_bytes)
        return downloaded_file_bytes
    >> *)
Definition download (bucket object : string) (filename : option string)
  : M payload :=
  get_conn;;
  downloaded_file_bytes ← objects_get_media bucket object;
  (if truthy_filename filename then
     let write_argument := if is_bytes downloaded_file_bytes then WB else W in
     open_write (default "" filename) write_argument downloaded_file_bytes
   else mret tt);;
  mret downloaded_file_bytes.

(** <<
    def upload(self, bucket, object, filename, mime_type='application/octet-stream'):
        service = self.get_conn()
        media = MediaFileUpload(filename, mime_type)
        response = service.objects() \
            .insert(bucket=bucket, name=object, media_body=media).execute()
    >> *)
Definition upload (bucket object filename mime_type : string) : M unit :=
  get_conn;;
  media ← MediaFileUpload filename mime_type;
  response ← objects_insert bucket object media;
  mret tt.

(** <<
    def exists(self, bucket, object):
        service = self.get_conn()
        try:
            service.objects().get(bucket=bucket, object=object).execute()
            return True
        except errors.HttpError as ex:
            if ex.resp['status'] == '404':
                return False
            raise
    >> *)
Definition exists_ (bucket object : string) : M bool :=
  get_conn;;
  try_except_HttpError
    (objects_get bucket object;; mret true)
    (λ status, if bool_decide (status = "404") then mret false
               else raise (HttpError status)).

(** <<
    def is_updated_after(self, bucket, object, ts):
        service = self.get_conn()
        try:
            response = service.objects().get(bucket=bucket, object=object).execute()
            if 'updated' in response:
                if not ts.tzinfo:
                    ts = ts.replace(tzinfo=dateutil.tz.tzutc())
                updated = dateutil.parser.parse(response['updated'])
                logging.log(...)
                if updated > ts:
                    return True
        except errors.HttpError as ex:
            if ex.resp['status'] != '404':
                raise
        return False
    >>
    The call to [logging.log] has no effect on the result and is left out. *)
Definition is_updated_after (bucket object : string) (ts : datetime) : M bool :=
  get_conn;;
  try_except_HttpError
    (response ← objects_get bucket object;
     match response !! "updated" with
     | Some updated_text =>
         let ts := match tzinfo ts with
                   | None => replace_tzinfo ts tzutc
                   | Some _ => ts
                   end in
         updated ← lift (dateutil_parse updated_text);
         gt ← lift (datetime_gt updated ts);
         if gt : bool then mret true else mret false
     | None => mret false
     end)
    (λ status, if bool_decide (status ≠ "404") then raise (HttpError status)
               else mret false).

(** <<
    def delete(self, bucket, object, generation=None):
        service = self.get_conn()
        try:
            service.objects() \
                .delete(bucket=bucket, object=object, generation=generation).execute()
            return True
        except errors.HttpError as ex:
            if ex.resp['status'] == '404':
                return False
            raise
    >> *)
Definition delete (bucket object : string) (generation : option string)
  : M bool :=
  get_conn;;
  try_except_HttpError
    (objects_delete bucket object generation;; mret true)
    (λ status, if bool_decide (status = "404") then mret false
               else raise (HttpError status)).

(** <<
    for item in response['items']:
        if item and 'name' in item:
            ids.append(item['name'])
    >> *)
Definition append_names (ids : list string) (its : list (option resource))
  : list string :=
  foldl (λ (ids : list string) item,
           if truthy_item item then
             match item ≫= (.!! "name") with
             | Some name => (ids ++ [name])%list
             | None => ids
             end
           else ids)
        ids its.

(** The body of [while(True)], iterated at most [fuel] times.  [None] in the
    first component says the loop was still running when the fuel ran out;
    the world is the one reached in either case. *)
Fixpoint list_loop (fuel : nat) (bucket : string) (versions : option bool)
    (maxResults : option Z) (prefix : option string)
    (ids : list string) (pageToken : option string) (w : World B)
  : option (result (list string)) * World B :=
  match fuel with
  | O => (None, w)
  | S fuel' =>
      match objects_list bucket versions maxResults pageToken prefix w with
      | (Raise e, w') => (Some (Raise e), w')
      | (Ok response, w') =>
          match items response with
          | None => (Some (Ok ids), w')
          | Some its =>
              let ids := append_names ids its in
              match nextPageToken response with
              | None => (Some (Ok ids), w')
              | Some pageToken =>
                  if negb (truthy_str pageToken) then (Some (Ok ids), w')
                  else list_loop fuel' bucket versions maxResults prefix
                                 ids (Some pageToken) w'
              end
          end
      end
  end.

(** <<
    def list(self, bucket, versions=None, maxResults=None, prefix=None):
        service = self.get_conn()
        ids = list()
        pageToken = None
        while(True):
            response = service.objects().list(
                bucket=bucket, versions=versions, maxResults=maxResults,
                pageToken=pageToken, prefix=prefix).execute()
            if 'items' not in response:
                logging.info(...)
                break
            for item in response['items']: ...
            if 'nextPageToken' not in response:
                break
            pageToken = response['nextPageToken']
            if not pageToken:
                break
        return ids
    >> *)
Definition list (fuel : nat) (bucket : string) (versions : option bool)
    (maxResults : option Z) (prefix : option string) (w : World B)
  : option (result (Datatypes.list string)) * World B :=
  match get_conn w with
  | (Raise e, w') => (Some (Raise e), w')
  | (Ok _, w') => list_loop fuel bucket versions maxResults prefix [] None w'
  end.

End Methods.
End GoogleCloudStorageHook.

(** ** Two backends *)

(** *** A scripted backend

    The collaborators as a test double: every operation answers with the
    outcome it was loaded with and changes nothing, except the listing, which
    hands out its pages one call at a time (a [side_effect] list) and raises
    once they are used up. *)
Record mock : Type := Mock {
  mock_authorize : result unit;
  mock_get : result resource;
  mock_get_media : result payload;
  mock_insert : result resource;
  mock_delete : result unit;
  mock_list : list (result list_response);
  mock_read : result (list Byte.byte);
  mock_write : result unit
}.

Definition mock_next_page (m : mock) : result list_response * mock :=
  match mock_list m with
  | [] => (Raise (PyError "StopIteration"), m)
  | page :: rest =>
      (page, Mock (mock_authorize m) (mock_get m) (mock_get_media m)
                  (mock_insert m) (mock_delete m) rest
                  (mock_read m) (mock_write m))
  end.

#[export] Instance mock_backend : Backend mock := {|
  authorize m := (mock_authorize m, m);
  svc_get _ _ m := (mock_get m, m);
  svc_get_media _ _ m := (mock_get_media m, m);
  svc_insert _ _ _ m := (mock_insert m, m);
  svc_delete _ _ _ m := (mock_delete m, m);
  svc_list _ _ _ _ _ m := mock_next_page m;
  file_read _ m := (mock_read m, m);
  file_write _ _ _ m := (mock_write m, m)
|}.

(** A double in which everything succeeds with an empty answer. *)
Definition quiet : mock :=
  Mock (Ok tt) (Ok ∅) (Ok (PBytes [])) (Ok ∅) (Ok tt) [] (Ok []) (Ok tt).

(** *** An in-memory object store

    A reference reading of the service and of the file system: buckets of
    named objects holding bytes, and local files holding bytes.  A request
    that names a missing bucket or object fails with status 404; an insert
    replaces the object of that name; there is no versioning, so a
    [generation] is ignored; a listing is a single page. *)
Record mem : Type := Mem {
  buckets : gmap string (gmap string (list Byte.byte));
  files : gmap string (list Byte.byte)
}.

Definition not_found {A} (m : mem) : result A * mem := (Raise (HttpError "404"), m).

Definition describe (bucket name : string) : resource :=
  {[ "bucket" := bucket; "name" := name ]}.

Definition mem_get (bucket object : string) (m : mem) : result resource * mem :=
  match buckets m !! bucket ≫= (.!! object) with
  | Some _ => (Ok (describe bucket object), m)
  | None => not_found m
  end.

Definition mem_get_media (bucket object : string) (m : mem)
  : result payload * mem :=
  match buckets m !! bucket ≫= (.!! object) with
  | Some content => (Ok (PBytes content), m)
  | None => not_found m
  end.

Definition mem_insert (bucket name : string) (body : media) (m : mem)
  : result resource * mem :=
  match buckets m !! bucket with
  | Some objects =>
      (Ok (describe bucket name),
       Mem (<[bucket := <[name := media_body body]> objects]> (buckets m))
           (files m))
  | None => not_found m
  end.

Definition mem_delete (bucket object : string) (generation : option string)
    (m : mem) : result unit * mem :=
  match buckets m !! bucket with
  | Some objects =>
      match objects !! object with
      | Some _ =>
          (Ok tt, Mem (<[bucket := base.delete object objects]> (buckets m))
                      (files m))
      | None => not_found m
      end
  | None => not_found m
  end.

Definition has_prefix (prefix : option string) (name : string) : bool :=
  match prefix with
  | None => true
  | Some p => String.prefix p name
  end.

Definition mem_list (bucket : string) (versions : option bool)
    (maxResults : option Z) (pageToken prefix : option string) (m : mem)
  : result list_response * mem :=
  match buckets m !! bucket with
  | Some objects =>
      let names := filter (λ n, has_prefix prefix n = true)
                          (fst <$> map_to_list objects) in
      (Ok (ListResponse
             (if decide (names = []) then None
              else Some ((λ n, Some (describe bucket n)) <$> names))
             None), m)
  | None => not_found m
  end.

Definition mem_read (path : string) (m : mem) : result (list Byte.byte) * mem :=
  match files m !! path with
  | Some content => (Ok content, m)
  | None => (Raise (PyError "IOError"), m)
  end.

Definition encode (data : payload) : list Byte.byte :=
  match data with
  | PBytes b => b
  | PText s => String.list_byte_of_string s
  end.

Definition mem_write (path : string) (mode : write_mode) (data : payload)
    (m : mem) : result unit * mem :=
  (Ok tt, Mem (buckets m) (<[path := encode data]> (files m))).

#[export] Instance mem_backend : Backend mem := {|
  authorize m := (Ok tt, m);
  svc_get := mem_get;
  svc_get_media := mem_get_media;
  svc_insert := mem_insert;
  svc_delete := mem_delete;
  svc_list := mem_list;
  file_read := mem_read;
  file_write := mem_write
|}.

(** ** Vocabulary of the statements *)

(** The world a method leaves behind: the backend as the collaborators left
    it, and the events of the method after those already on the trace. *)
Definition after {B} (w : World B) (b : B) (evs : list event) : World B :=
  mkWorld b (trace w ++ evs).
Arguments after : simpl never.

(** What [exists] and [delete] make of the outcome of their call. *)
Definition absorb_404 {A} (out : result A) : result bool :=
  match out with
  | Ok _ => Ok true
  | Raise (HttpError status) =>
      if bool_decide (status = "404") then Ok false else Raise (HttpError status)
  | Raise e => Raise e
  end.

(** The names on a page, in the order the service returned them; entries
    without a name are skipped. *)
Definition item_names (its : list (option resource)) : list string :=
  omap (λ item : option resource, item ≫= (.!! "name")) its.

(** The instant a timestamp denotes when a naive one is read as UTC. *)
Definition instant_assuming_utc (ts : datetime) : Z :=
  wall ts - default 0 (tzinfo ts).

(** The page request of a listing that carries the cursor [pageToken]. *)
Definition page_request (bucket : string) (versions : option bool)
    (maxResults : option Z) (prefix pageToken : option string) : event :=
  Sent (ObjectsList bucket versions maxResults pageToken prefix).

(** A page request whose cursor is the empty string. *)
Definition empty_cursor (ev : event) : Prop :=
  match ev with
  | Sent (ObjectsList _ _ _ (Some "") _) => True
  | _ => False
  end.

(** Worlds to run the methods in. *)
Definition fresh {B} (b : B) : World B := mkWorld b [].

Definition with_delete (out : result unit) (m : mock) : mock :=
  Mock (mock_authorize m) (mock_get m) (mock_get_media m) (mock_insert m)
       out (mock_list m) (mock_read m) (mock_write m).

Definition with_get (out : result resource) (m : mock) : mock :=
  Mock (mock_authorize m) out (mock_get_media m) (mock_insert m)
       (mock_delete m) (mock_list m) (mock_read m) (mock_write m).

Definition with_get_media (out : result payload) (m : mock) : mock :=
  Mock (mock_authorize m) (mock_get m) out (mock_insert m)
       (mock_delete m) (mock_list m) (mock_read m) (mock_write m).

Definition with_pages (pages : list (result list_response)) (m : mock) : mock :=
  Mock (mock_authorize m) (mock_get m) (mock_get_media m) (mock_insert m)
       (mock_delete m) pages (mock_read m) (mock_write m).

(** A page of named objects, with or without a token for the next one. *)
Definition page (names : list string) (token : option string)
  : result list_response :=
  Ok (ListResponse (Some ((λ n, Some {[ "name" := n ]}) <$> names)) token).

(** A parser that knows two texts: noon UTC on 1 March 2016 written with
    and without its timezone. *)
Definition parse_known (text : string) : result datetime :=
  if bool_decide (text = "2016-03-01T12:00:00Z")
  then Ok (mkDatetime 1456833600000000 (Some 0))
  else if bool_decide (text = "2016-03-01T12:00:00")
  then Ok (mkDatetime 1456833600000000 None)
  else Raise (PyError "ValueError").

(** A store with one bucket, which is empty, and one local file. *)
Definition one_empty_bucket : mem :=
  Mem {[ "bucket" := ∅ ]} {[ "/tmp/report.csv" := [Byte.x61; Byte.x2c; Byte.x62] ]}.

(** More doubles: one whose authorisation, file read or insert is loaded
    with a given outcome. *)
Definition with_authorize (out : result unit) (m : mock) : mock :=
  Mock out (mock_get m) (mock_get_media m) (mock_insert m)
       (mock_delete m) (mock_list m) (mock_read m) (mock_write m).

Definition with_read (out : result (list Byte.byte)) (m : mock) : mock :=
  Mock (mock_authorize m) (mock_get m) (mock_get_media m) (mock_insert m)
       (mock_delete m) (mock_list m) out (mock_write m).

Definition with_insert (out : result resource) (m : mock) : mock :=
  Mock (mock_authorize m) (mock_get m) (mock_get_media m) out
       (mock_delete m) (mock_list m) (mock_read m) (mock_write m).

(** A service whose listing never ends: every page is empty and carries the
    token ["more"]. *)
Inductive endless : Type := Endless.

#[export] Instance endless_backend : Backend endless := {|
  authorize s := (Ok tt, s);
  svc_get _ _ s := (Raise (HttpError "404"), s);
  svc_get_media _ _ s := (Raise (HttpError "404"), s);
  svc_insert _ _ _ s := (Raise (HttpError "404"), s);
  svc_delete _ _ _ s := (Raise (HttpError "404"), s);
  svc_list _ _ _ _ _ s := (Ok (ListResponse (Some []) (Some "more")), s);
  file_read _ s := (Raise (PyError "IOError"), s);
  file_write _ _ _ s := (Ok tt, s)
|}.

(** A store whose bucket holds the object [report.csv]. *)
Definition one_object_bucket : mem :=
  Mem {[ "bucket" := {[ "report.csv" := [Byte.x61; Byte.x2c; Byte.x62] ]} ]}
      {[ "/tmp/report.csv" := [Byte.x61; Byte.x2c; Byte.x62] ]}.

(** *** Runs of pages

    A turn of the listing loop that goes on to the next page: the request
    carried [pageToken], and the page had [items] and a non-empty token. *)
Definition turn : Type := option string * list (option resource).

Definition turn_names (steps : list turn) : list string :=
  concat ((λ step : turn, item_names step.2) <$> steps).

Definition turn_requests (bucket : string) (versions : option bool)
    (maxResults : option Z) (prefix : option string) (steps : list turn)
  : list event :=
  (λ step : turn, page_request bucket versions maxResults prefix step.1)
    <$> steps.

Section Pages.
Context {B : Type} `{Backend B}.
Context (bucket : string) (versions : option bool) (maxResults : option Z)
        (prefix : option string).

(** [turns pageToken b steps pageToken' b']: from the cursor [pageToken] and
    the backend [b], the service answers the requests of [steps] one after
    the other, each with items and a non-empty token that the next request
    echoes, and leaves the cursor [pageToken'] and the backend [b']. *)
Inductive turns : option string → B → list turn → option string → B → Prop :=
| turns_done pageToken b : turns pageToken b [] pageToken b
| turns_more pageToken b its token b1 steps pageToken' b' :
    svc_list bucket versions maxResults pageToken prefix b
      = (Ok (ListResponse (Some its) (Some token)), b1) →
    token ≠ "" →
    turns (Some token) b1 steps pageToken' b' →
    turns pageToken b ((pageToken, its) :: steps) pageToken' b'.

End Pages.

(** * Properties *)

(** ** Running the steps of a method *)

(** Unfold the monad around the backend calls of the goal. *)
Ltac run_hook :=
  unfold try_except_HttpError, GoogleCloudStorageHook.objects_get,
    GoogleCloudStorageHook.objects_get_media,
    GoogleCloudStorageHook.objects_insert,
    GoogleCloudStorageHook.objects_delete,
    GoogleCloudStorageHook.objects_list,
    GoogleCloudStorageHook.open_write,
    GoogleCloudStorageHook.MediaFileUpload,
    GoogleCloudStorageHook.get_conn,
    mbind, M_bind, mret, M_ret, lift, raise, log_event, call, after;
  simpl.

Section Steps.
Context {B : Type} `{Backend B}.
Implicit Types (w : World B) (b : B).

Lemma get_conn_run w r b :
  authorize (backend w) = (r, b) →
  GoogleCloudStorageHook.get_conn w = (r, after w b []).
Proof.
  intros E. unfold GoogleCloudStorageHook.get_conn, call, after. rewrite E, app_nil_r. done.
Qed.

Lemma sent_run {A} (op : B → result A * B) (req : request) w (r : result A) b :
  op (backend w) = (r, b) →
  (log_event (Sent req);; call op) w = (r, after w b [Sent req]).
Proof.
  intros E. unfold mbind, M_bind, log_event, call, after. simpl.
  rewrite E. done.
Qed.

Lemma after_after w b b' evs evs' :
  after (after w b evs) b' evs' = after w b' (evs ++ evs').
Proof. unfold after. simpl. by rewrite <- app_assoc. Qed.

Lemma after_backend w b evs : backend (after w b evs) = b.
Proof. done. Qed.

Lemma after_trace w b evs : trace (after w b evs) = (trace w ++ evs)%list.
Proof. done. Qed.

End Steps.


(** ** [exists] and [delete]: a 404 is an answer, any other failure is not *)

Section StatusAware.
Context {B : Type} `{Backend B}.
Implicit Types (w : World B) (b : B).

Lemma absorb_404_true {A} (out : result A) :
  absorb_404 out = Ok true ↔ ∃ a, out = Ok a.
Proof.
  destruct out as [a|[status|cls]]; simpl; try case_bool_decide;
    split; try (intros [? ?]); eauto; done.
Qed.

Lemma absorb_404_false {A} (out : result A) :
  absorb_404 out = Ok false ↔ out = Raise (HttpError "404").
Proof.
  destruct out as [a|[status|cls]]; simpl; try case_bool_decide;
    split; intros E; try done; congruence.
Qed.

Lemma absorb_404_raise {A} (out : result A) (e : exn) :
  out = Raise e → e ≠ HttpError "404" → absorb_404 out = Raise e.
Proof.
  intros -> Hne. destruct e as [status|cls]; simpl; [|done].
  case_bool_decide; [congruence|done].
Qed.

Lemma try_absorb_run {A} (req : request) (op : B → result A * B) w r b :
  op (backend w) = (r, b) →
  try_except_HttpError
    ((log_event (Sent req);; call op);; mret true)
    (λ status, if bool_decide (status = "404") then mret false
               else raise (HttpError status)) w
  = (absorb_404 r, after w b [Sent req]).
Proof.
  intros E. unfold try_except_HttpError.
  unfold mbind at 1. unfold M_bind at 1.
  rewrite (sent_run op req w r b E).
  destruct r as [a|[status|cls]]; simpl; try done.
  case_bool_decide; done.
Qed.

Lemma exists_run bucket object w b1 b2 out :
  authorize (backend w) = (Ok tt, b1) →
  svc_get bucket object b1 = (out, b2) →
  GoogleCloudStorageHook.exists_ bucket object w
  = (absorb_404 out, after w b2 [Sent (ObjectsGet bucket object)]).
Proof.
  intros Ea Eg. unfold GoogleCloudStorageHook.exists_.
  unfold mbind at 1. unfold M_bind at 1.
  rewrite (get_conn_run w _ _ Ea).
  unfold GoogleCloudStorageHook.objects_get.
  rewrite (try_absorb_run _ _ (after w b1 []) out b2 Eg).
  by rewrite after_after.
Qed.

Lemma delete_run bucket object generation w b1 b2 out :
  authorize (backend w) = (Ok tt, b1) →
  svc_delete bucket object generation b1 = (out, b2) →
  GoogleCloudStorageHook.delete bucket object generation w
  = (absorb_404 out, after w b2 [Sent (ObjectsDelete bucket object generation)]).
Proof.
  intros Ea Eg. unfold GoogleCloudStorageHook.delete.
  unfold mbind at 1. unfold M_bind at 1.
  rewrite (get_conn_run w _ _ Ea).
  unfold GoogleCloudStorageHook.objects_delete.
  rewrite (try_absorb_run _ _ (after w b1 []) out b2 Eg).
  by rewrite after_after.
Qed.

(** C1.  Once the service object is obtained, [exists] answers [True] when
    the metadata GET succeeds, answers [False] exactly when the GET fails
    with an [HttpError] of status ['404'], and re-raises every other
    failure unchanged: no failure other than a 404 becomes a boolean. *)
Theorem exists_disambiguates_404 bucket object w b1 b2 (out : result resource) :
  authorize (backend w) = (Ok tt, b1) →
  svc_get bucket object b1 = (out, b2) →
  ((∃ metadata, out = Ok metadata) →
     (GoogleCloudStorageHook.exists_ bucket object w).1 = Ok true) ∧
  ((GoogleCloudStorageHook.exists_ bucket object w).1 = Ok false
     ↔ out = Raise (HttpError "404")) ∧
  (∀ e, out = Raise e → e ≠ HttpError "404" →
     (GoogleCloudStorageHook.exists_ bucket object w).1 = Raise e).
Proof.
  intros Ea Eg. rewrite (exists_run _ _ _ _ _ _ Ea Eg). simpl.
  split; [|split].
  - apply absorb_404_true.
  - apply absorb_404_false.
  - apply absorb_404_raise.
Qed.

(** C3.  Once the service object is obtained, [delete] (with or without a
    generation) answers [True] when the delete call succeeds, answers
    [False] when the call fails with status ['404'], and propagates every
    other failure unchanged. *)
Theorem delete_true_false_or_raise bucket object generation w b1 b2
    (out : result unit) :
  authorize (backend w) = (Ok tt, b1) →
  svc_delete bucket object generation b1 = (out, b2) →
  (out = Ok tt →
     (GoogleCloudStorageHook.delete bucket object generation w).1 = Ok true) ∧
  (out = Raise (HttpError "404") →
     (GoogleCloudStorageHook.delete bucket object generation w).1 = Ok false) ∧
  (∀ e, out = Raise e → e ≠ HttpError "404" →
     (GoogleCloudStorageHook.delete bucket object generation w).1 = Raise e).
Proof.
  intros Ea Eg. rewrite (delete_run _ _ _ _ _ _ _ Ea Eg). simpl.
  split; [|split].
  - intros ->. done.
  - intros ->. done.
  - apply absorb_404_raise.
Qed.

(** C2 (as amended).  When the delete call fails with status ['404'], the
    object being absent, [delete] answers [False], and the only request it
    made is that delete call. *)
Theorem delete_missing_is_false bucket object generation w b1 b2 :
  authorize (backend w) = (Ok tt, b1) →
  svc_delete bucket object generation b1 = (Raise (HttpError "404"), b2) →
  GoogleCloudStorageHook.delete bucket object generation w
  = (Ok false, after w b2 [Sent (ObjectsDelete bucket object generation)]).
Proof.
  intros Ea Eg. by rewrite (delete_run _ _ _ _ _ _ _ Ea Eg).
Qed.

End StatusAware.

(** The object [report.csv] is not in the store: the metadata GET fails with
    404 and [exists] answers [False]. *)
Lemma exists_disambiguates_404_witness :
  authorize (backend (fresh one_empty_bucket)) = (Ok tt, one_empty_bucket) ∧
  svc_get "bucket" "report.csv" one_empty_bucket
    = (Raise (HttpError "404"), one_empty_bucket) ∧
  (GoogleCloudStorageHook.exists_ "bucket" "report.csv"
     (fresh one_empty_bucket)).1 = Ok false.
Proof.
  assert (Ea : authorize (backend (fresh one_empty_bucket))
               = (Ok tt, one_empty_bucket)) by reflexivity.
  assert (Eg : svc_get "bucket" "report.csv" one_empty_bucket
               = (Raise (HttpError "404"), one_empty_bucket))
    by (vm_compute; reflexivity).
  split; [exact Ea|]. split; [exact Eg|].
  destruct (exists_disambiguates_404 _ _ _ _ _ _ Ea Eg) as (_ & Hfalse & _).
  apply Hfalse. reflexivity.
Defined.

(** A service that is down answers the delete call with status 503, and
    [delete] raises that failure. *)
Lemma delete_true_false_or_raise_witness :
  let down := with_delete (Raise (HttpError "503")) quiet in
  authorize (backend (fresh down)) = (Ok tt, down) ∧
  svc_delete "bucket" "report.csv" (Some "7") down
    = (Raise (HttpError "503"), down) ∧
  (GoogleCloudStorageHook.delete "bucket" "report.csv" (Some "7")
     (fresh down)).1 = Raise (HttpError "503").
Proof.
  intros down.
  assert (Ea : authorize (backend (fresh down)) = (Ok tt, down)) by reflexivity.
  assert (Eg : svc_delete "bucket" "report.csv" (Some "7") down
               = (Raise (HttpError "503"), down)) by reflexivity.
  split; [exact Ea|]. split; [exact Eg|].
  destruct (delete_true_false_or_raise _ _ _ _ _ _ _ Ea Eg) as (_ & _ & Hraise).
  apply Hraise; [reflexivity|discriminate].
Defined.

(** Deleting [report.csv] from a bucket that does not hold it. *)
Lemma delete_missing_is_false_witness :
  authorize (backend (fresh one_empty_bucket)) = (Ok tt, one_empty_bucket) ∧
  svc_delete "bucket" "report.csv" None one_empty_bucket
    = (Raise (HttpError "404"), one_empty_bucket) ∧
  GoogleCloudStorageHook.delete "bucket" "report.csv" None (fresh one_empty_bucket)
    = (Ok false,
       after (fresh one_empty_bucket) one_empty_bucket
             [Sent (ObjectsDelete "bucket" "report.csv" None)]).
Proof.
  assert (Ea : authorize (backend (fresh one_empty_bucket))
               = (Ok tt, one_empty_bucket)) by reflexivity.
  assert (Eg : svc_delete "bucket" "report.csv" None one_empty_bucket
               = (Raise (HttpError "404"), one_empty_bucket))
    by (vm_compute; reflexivity).
  split; [exact Ea|]. split; [exact Eg|].
  exact (delete_missing_is_false _ _ _ _ _ _ Ea Eg).
Defined.

(** C2 as stated fails: the object is missing, the delete call fails with
    404, and [delete] answers [False], not [True]. *)
Lemma delete_missing_is_not_true :
  svc_delete "bucket" "report.csv" None one_empty_bucket
    = (Raise (HttpError "404"), one_empty_bucket) ∧
  (GoogleCloudStorageHook.delete "bucket" "report.csv" None
     (fresh one_empty_bucket)).1 = Ok false ∧
  (GoogleCloudStorageHook.delete "bucket" "report.csv" None
     (fresh one_empty_bucket)).1 ≠ Ok true.
Proof.
  assert (E : (GoogleCloudStorageHook.delete "bucket" "report.csv" None
                 (fresh one_empty_bucket)).1 = Ok false)
    by (vm_compute; reflexivity).
  split; [vm_compute; reflexivity|]. split; [exact E|].
  rewrite E. discriminate.
Qed.

(** ** [is_updated_after] *)

Section Freshness.
Context {B : Type} `{Backend B}.
Context (dateutil_parse : string → result datetime).
Implicit Types (w : World B) (b : B) (ts updated : datetime).

(** After normalisation the threshold is aware, and denotes the instant of
    the original read as UTC when it was naive. *)
Lemma datetime_gt_normalised updated ts offset :
  tzinfo updated = Some offset →
  datetime_gt updated
    (match tzinfo ts with
     | None => replace_tzinfo ts tzutc
     | Some _ => ts
     end)
  = Ok (bool_decide (instant_assuming_utc ts < wall updated - offset)).
Proof.
  intros Eu. unfold datetime_gt, instant_assuming_utc. rewrite Eu.
  destruct (tzinfo ts) as [o|] eqn:Et; simpl; [by rewrite Et|done].
Qed.

(** A naive [updated] cannot be compared with the normalised threshold. *)
Lemma datetime_gt_naive_updated updated ts :
  tzinfo updated = None →
  datetime_gt updated
    (match tzinfo ts with
     | None => replace_tzinfo ts tzutc
     | Some _ => ts
     end)
  = Raise (PyError "TypeError").
Proof.
  intros Eu. unfold datetime_gt. rewrite Eu.
  destruct (tzinfo ts) as [o|] eqn:Et; simpl; [by rewrite Et|done].
Qed.

Lemma is_updated_after_step bucket object ts w b1 :
  authorize (backend w) = (Ok tt, b1) →
  GoogleCloudStorageHook.is_updated_after dateutil_parse bucket object ts w
  = try_except_HttpError
      (response ← GoogleCloudStorageHook.objects_get bucket object;
       match response !! "updated" with
       | Some updated_text =>
           let ts := match tzinfo ts with
                     | None => replace_tzinfo ts tzutc
                     | Some _ => ts
                     end in
           updated ← lift (dateutil_parse updated_text);
           gt ← lift (datetime_gt updated ts);
           if gt : bool then mret true else mret false
       | None => mret false
       end)
      (λ status, if bool_decide (status ≠ "404") then raise (HttpError status)
                 else mret false)
      (after w b1 []).
Proof.
  intros Ea. unfold GoogleCloudStorageHook.is_updated_after.
  unfold mbind at 1. unfold M_bind at 1.
  by rewrite (get_conn_run w _ _ Ea).
Qed.

(** C4.  Once the service object is obtained, [is_updated_after] answers
    [False] when the metadata GET fails with status ['404']; re-raises any
    other failure of the GET; answers [False] when the response has no
    [updated] field; and otherwise, the field parsing to a timezone-aware
    timestamp, answers [True] exactly when that instant is strictly later
    than the threshold, a naive threshold being read as UTC; in particular
    equal instants give [False]. *)
Theorem is_updated_after_strictly_later bucket object ts w b1 b2
    (out : result resource) :
  authorize (backend w) = (Ok tt, b1) →
  svc_get bucket object b1 = (out, b2) →
  (out = Raise (HttpError "404") →
     (GoogleCloudStorageHook.is_updated_after dateutil_parse bucket object ts w).1
     = Ok false) ∧
  (∀ e, out = Raise e → e ≠ HttpError "404" →
     (GoogleCloudStorageHook.is_updated_after dateutil_parse bucket object ts w).1
     = Raise e) ∧
  (∀ response, out = Ok response → response !! "updated" = None →
     (GoogleCloudStorageHook.is_updated_after dateutil_parse bucket object ts w).1
     = Ok false) ∧
  (∀ response text updated offset,
     out = Ok response → response !! "updated" = Some text →
     dateutil_parse text = Ok updated → tzinfo updated = Some offset →
     (GoogleCloudStorageHook.is_updated_after dateutil_parse bucket object ts w).1
     = Ok (bool_decide (instant_assuming_utc ts < wall updated - offset)) ∧
     (wall updated - offset = instant_assuming_utc ts →
      (GoogleCloudStorageHook.is_updated_after dateutil_parse bucket object ts w).1
      = Ok false)).
Proof.
  intros Ea Eg. rewrite (is_updated_after_step _ _ _ _ _ Ea).
  split; [|split; [|split]].
  - intros ->. run_hook. by rewrite Eg.
  - intros e -> Hne. run_hook. rewrite Eg.
    destruct e as [status|cls]; simpl; [|done].
    case_bool_decide; [done|congruence].
  - intros response -> Eu. run_hook. rewrite Eg. simpl. by rewrite Eu.
  - intros response text updated offset -> Eu Ep Et. run_hook.
    rewrite Eg. simpl. rewrite Eu, Ep.
    rewrite (datetime_gt_normalised _ _ _ Et).
    split.
    + by case_bool_decide.
    + intros Eeq. case_bool_decide; [lia|done].
Qed.

(** Outside the claim: an [updated] text without a timezone parses to a
    naive timestamp, and the comparison raises. *)
Lemma is_updated_after_naive_updated bucket object ts w b1 b2 response text
    updated :
  authorize (backend w) = (Ok tt, b1) →
  svc_get bucket object b1 = (Ok response, b2) →
  response !! "updated" = Some text →
  dateutil_parse text = Ok updated → tzinfo updated = None →
  (GoogleCloudStorageHook.is_updated_after dateutil_parse bucket object ts w).1
  = Raise (PyError "TypeError").
Proof.
  intros Ea Eg Eu Ep Et. rewrite (is_updated_after_step _ _ _ _ _ Ea).
  run_hook. rewrite Eg. simpl. rewrite Eu, Ep.
  by rewrite (datetime_gt_naive_updated _ _ Et).
Qed.

End Freshness.

(** ** [download] *)

Section Download.
Context {B : Type} `{Backend B}.
Implicit Types (w : World B) (b : B) (filename : option string).

Lemma download_failed bucket object filename w b1 b2 e :
  authorize (backend w) = (Ok tt, b1) →
  svc_get_media bucket object b1 = (Raise e, b2) →
  GoogleCloudStorageHook.download bucket object filename w
  = (Raise e, after w b2 [Sent (ObjectsGetMedia bucket object)]).
Proof.
  intros Ea Eg. unfold GoogleCloudStorageHook.download. run_hook.
  rewrite Ea. simpl. by rewrite Eg.
Qed.

Lemma download_unwritten bucket object filename w b1 b2 content :
  authorize (backend w) = (Ok tt, b1) →
  svc_get_media bucket object b1 = (Ok content, b2) →
  truthy_filename filename = false →
  GoogleCloudStorageHook.download bucket object filename w
  = (Ok content, after w b2 [Sent (ObjectsGetMedia bucket object)]).
Proof.
  intros Ea Eg Ef. unfold GoogleCloudStorageHook.download. rewrite Ef.
  run_hook. rewrite Ea. simpl. by rewrite Eg.
Qed.

Lemma download_written bucket object path w b1 b2 b3 content outcome :
  authorize (backend w) = (Ok tt, b1) →
  svc_get_media bucket object b1 = (Ok content, b2) →
  path ≠ "" →
  file_write path (if is_bytes content then WB else W) content b2
    = (outcome, b3) →
  GoogleCloudStorageHook.download bucket object (Some path) w
  = (match outcome with Ok _ => Ok content | Raise e => Raise e end,
     after w b3 [Sent (ObjectsGetMedia bucket object);
                 Wrote path (if is_bytes content then WB else W) content]).
Proof.
  intros Ea Eg Hp Ew. unfold GoogleCloudStorageHook.download.
  assert (truthy_filename (Some path) = true) as ->.
  { simpl. unfold truthy_str. by case_bool_decide. }
  run_hook. rewrite Ea. simpl. rewrite Eg. simpl. rewrite Ew.
  rewrite <- app_assoc. simpl. by destruct outcome.
Qed.

(** C8.  Once the service object is obtained, [download] raises whatever
    the media GET raised, status ['404'] included, whatever the destination;
    it never turns a failure into content, and it writes no file. *)
Theorem download_propagates_every_failure bucket object filename w b1 b2 e :
  authorize (backend w) = (Ok tt, b1) →
  svc_get_media bucket object b1 = (Raise e, b2) →
  GoogleCloudStorageHook.download bucket object filename w
  = (Raise e, after w b2 [Sent (ObjectsGetMedia bucket object)]) ∧
  (e = HttpError "404" →
   ∀ content,
     (GoogleCloudStorageHook.download bucket object filename w).1 ≠ Ok content).
Proof.
  intros Ea Eg. rewrite (download_failed _ _ _ _ _ _ _ Ea Eg).
  split; [done|]. intros _ content. simpl. discriminate.
Qed.

(** C10.  [download] tests the destination for truthiness.  With the empty
    string as destination it behaves as with no destination at all: the
    content fetched is returned, nothing is written and the file system is
    left as the media GET left it.  With a non-empty destination the content
    is written to it, in binary mode for bytes and text mode otherwise, and
    is returned when the write succeeds.  A file write on the trace of
    [download] therefore names a non-empty destination. *)
Theorem download_empty_path_writes_nothing bucket object w b1 b2 content :
  authorize (backend w) = (Ok tt, b1) →
  svc_get_media bucket object b1 = (Ok content, b2) →
  GoogleCloudStorageHook.download bucket object (Some "") w
  = (Ok content, after w b2 [Sent (ObjectsGetMedia bucket object)]) ∧
  GoogleCloudStorageHook.download bucket object (Some "") w
  = GoogleCloudStorageHook.download bucket object None w ∧
  (∀ path b3 outcome,
     path ≠ "" →
     file_write path (if is_bytes content then WB else W) content b2
       = (outcome, b3) →
     GoogleCloudStorageHook.download bucket object (Some path) w
     = (match outcome with Ok _ => Ok content | Raise e => Raise e end,
        after w b3 [Sent (ObjectsGetMedia bucket object);
                    Wrote path (if is_bytes content then WB else W) content])) ∧
  (∀ filename path mode data,
     Wrote path mode data
       ∈ trace (GoogleCloudStorageHook.download bucket object filename w).2 →
     Wrote path mode data ∉ trace w →
     filename = Some path ∧ path ≠ "").
Proof.
  intros Ea Eg.
  split; [|split; [|split]].
  - by apply (download_unwritten _ _ _ _ _ _ _ Ea Eg).
  - rewrite (download_unwritten _ _ (Some "") _ _ _ _ Ea Eg) by done.
    by rewrite (download_unwritten _ _ None _ _ _ _ Ea Eg).
  - intros path b3 outcome Hp Ew.
    exact (download_written _ _ _ _ _ _ _ _ _ Ea Eg Hp Ew).
  - intros filename path mode data Hin Hnew.
    destruct (truthy_filename filename) eqn:Ef.
    + destruct filename as [p|]; [|done].
      assert (p ≠ "") as Hp.
      { simpl in Ef. unfold truthy_str in Ef. by case_bool_decide. }
      destruct (file_write p (if is_bytes content then WB else W) content b2)
        as [outcome b3] eqn:Ew.
      rewrite (download_written _ _ _ _ _ _ _ _ _ Ea Eg Hp Ew) in Hin.
      simpl in Hin. unfold after in Hin. simpl in Hin.
      apply elem_of_app in Hin as [Hin|Hin]; [done|].
      apply elem_of_cons in Hin as [Hin|Hin]; [done|].
      apply list_elem_of_singleton in Hin. by simplify_eq.
    + rewrite (download_unwritten _ _ _ _ _ _ _ Ea Eg Ef) in Hin.
      simpl in Hin. unfold after in Hin. simpl in Hin.
      apply elem_of_app in Hin as [Hin|Hin]; [done|].
      apply list_elem_of_singleton in Hin. done.
Qed.

End Download.

(** ** [upload] then [download], against the in-memory store *)

Section RoundTrip.
Implicit Types (m : mem) (w : World mem).

Lemma mem_get_media_insert m bucket name objects content :
  mem_get_media bucket name
    (Mem (<[bucket := <[name := content]> objects]> (buckets m)) (files m))
  = (Ok (PBytes content),
     Mem (<[bucket := <[name := content]> objects]> (buckets m)) (files m)).
Proof.
  unfold mem_get_media. simpl.
  rewrite lookup_insert_eq. simpl. by rewrite lookup_insert_eq.
Qed.

(** What a successful [upload] leaves behind. *)
Lemma upload_succeeded bucket object filename mime_type w w' :
  GoogleCloudStorageHook.upload bucket object filename mime_type w = (Ok tt, w') →
  ∃ content objects,
    files (backend w) !! filename = Some content ∧
    buckets (backend w) !! bucket = Some objects ∧
    w' = after w
           (Mem (<[bucket := <[object := content]> objects]> (buckets (backend w)))
                (files (backend w)))
           [Sent (ObjectsInsert bucket object (MediaFileUpload_ content mime_type))].
Proof.
  unfold GoogleCloudStorageHook.upload. run_hook. unfold mem_read, mem_insert.
  destruct (files (backend w) !! filename) as [content|]; simpl; [|done].
  destruct (buckets (backend w) !! bucket) as [objects|]; simpl; [|done].
  intros [= <-]. by exists content, objects.
Qed.

(** [upload] succeeds when the file can be read and the bucket exists. *)
Lemma upload_succeeds bucket object filename mime_type w content objects :
  files (backend w) !! filename = Some content →
  buckets (backend w) !! bucket = Some objects →
  (GoogleCloudStorageHook.upload bucket object filename mime_type w).1 = Ok tt.
Proof.
  intros Ef Eb. unfold GoogleCloudStorageHook.upload. run_hook.
  unfold mem_read, mem_insert. rewrite Ef. simpl. by rewrite Eb.
Qed.

(** C9.  Against the in-memory store: when the local file holds the content
    [C] and [upload] of it to (bucket, object) succeeds, a [download] of
    (bucket, object) that follows returns exactly [C], whether or not it is
    also asked to write the content to a file. *)
Theorem upload_download_round_trip bucket object filename mime_type
    (C : list Byte.byte) destination w w' :
  files (backend w) !! filename = Some C →
  GoogleCloudStorageHook.upload bucket object filename mime_type w = (Ok tt, w') →
  (GoogleCloudStorageHook.download bucket object destination w').1
  = Ok (PBytes C).
Proof.
  intros Ef Eu.
  destruct (upload_succeeded _ _ _ _ _ _ Eu) as (content & objects & Ef' & Eb & ->).
  assert (content = C) as -> by congruence.
  unfold GoogleCloudStorageHook.download. run_hook.
  rewrite mem_get_media_insert. simpl.
  by destruct (truthy_filename destination).
Qed.

End RoundTrip.

(** ** [list]: following the cursor *)

Section Listing.
Context {B : Type} `{Backend B}.
Context (bucket : string) (versions : option bool) (maxResults : option Z)
        (prefix : option string).
Implicit Types (w : World B) (b : B) (ids : list string)
               (its : list (option resource)) (pageToken : option string).

Local Abbreviation loop := (GoogleCloudStorageHook.list_loop).
Local Abbreviation request_for pageToken :=
  (page_request bucket versions maxResults prefix pageToken).

Lemma append_names_spec ids its :
  GoogleCloudStorageHook.append_names ids its = (ids ++ item_names its)%list.
Proof.
  unfold GoogleCloudStorageHook.append_names, item_names.
  revert ids. induction its as [|item its IH]; intros ids; simpl.
  - by rewrite app_nil_r.
  - rewrite IH. destruct item as [d|]; simpl; [|done].
    destruct (d !! "name") as [name|] eqn:En.
    + case_bool_decide as Hd; [by rewrite <- app_assoc|].
      subst d. by rewrite lookup_empty in En.
    + by case_bool_decide.
Qed.

Lemma objects_list_run pageToken w out b :
  svc_list bucket versions maxResults pageToken prefix (backend w) = (out, b) →
  GoogleCloudStorageHook.objects_list bucket versions maxResults pageToken prefix w
  = (out, after w b [request_for pageToken]).
Proof. intros E. unfold GoogleCloudStorageHook.objects_list. by apply sent_run. Qed.

(** One turn of the loop, by what the page holds. *)
Lemma loop_raise fuel ids pageToken w b e :
  svc_list bucket versions maxResults pageToken prefix (backend w) = (Raise e, b) →
  loop (S fuel) bucket versions maxResults prefix ids pageToken w
  = (Some (Raise e), after w b [request_for pageToken]).
Proof. intros E. simpl. by rewrite (objects_list_run _ _ _ _ E). Qed.

Lemma loop_no_items fuel ids pageToken w b response :
  svc_list bucket versions maxResults pageToken prefix (backend w)
    = (Ok response, b) →
  items response = None →
  loop (S fuel) bucket versions maxResults prefix ids pageToken w
  = (Some (Ok ids), after w b [request_for pageToken]).
Proof.
  intros E Ei. simpl. rewrite (objects_list_run _ _ _ _ E). by rewrite Ei.
Qed.

Lemma loop_last_page fuel ids pageToken w b response its :
  svc_list bucket versions maxResults pageToken prefix (backend w)
    = (Ok response, b) →
  items response = Some its →
  nextPageToken response = None ∨ nextPageToken response = Some "" →
  loop (S fuel) bucket versions maxResults prefix ids pageToken w
  = (Some (Ok (ids ++ item_names its)%list), after w b [request_for pageToken]).
Proof.
  intros E Ei Et. simpl. rewrite (objects_list_run _ _ _ _ E).
  rewrite Ei, append_names_spec. by destruct Et as [-> | ->].
Qed.

Lemma loop_next_page fuel ids pageToken w b response its token :
  svc_list bucket versions maxResults pageToken prefix (backend w)
    = (Ok response, b) →
  items response = Some its →
  nextPageToken response = Some token → token ≠ "" →
  loop (S fuel) bucket versions maxResults prefix ids pageToken w
  = loop fuel bucket versions maxResults prefix (ids ++ item_names its)%list
         (Some token) (after w b [request_for pageToken]).
Proof.
  intros E Ei Et Hne. simpl. rewrite (objects_list_run _ _ _ _ E).
  rewrite Ei, append_names_spec, Et. unfold truthy_str.
  by case_bool_decide.
Qed.

(** However long the loop runs, and however it ends, the requests it adds to
    the trace carry no empty cursor, provided it did not start with one. *)
Lemma loop_cursors fuel ids pageToken w :
  pageToken ≠ Some "" →
  ∃ evs,
    trace (loop fuel bucket versions maxResults prefix ids pageToken w).2
    = (trace w ++ evs)%list ∧
    Forall (λ ev, ¬ empty_cursor ev) evs.
Proof.
  revert ids pageToken w.
  induction fuel as [|fuel IH]; intros ids pageToken w Hstart.
  { exists []. simpl. by rewrite app_nil_r. }
  assert (Hfirst : ¬ empty_cursor (request_for pageToken)).
  { unfold page_request. destruct pageToken as [[|a s]|]; simpl; tauto. }
  destruct (svc_list bucket versions maxResults pageToken prefix (backend w))
    as [[response|e] b] eqn:E.
  2: { rewrite (loop_raise _ _ _ _ _ _ E). exists [request_for pageToken].
       split; [done|]. by apply Forall_singleton. }
  destruct (items response) as [its|] eqn:Ei.
  2: { rewrite (loop_no_items _ _ _ _ _ _ E Ei). exists [request_for pageToken].
       split; [done|]. by apply Forall_singleton. }
  destruct (nextPageToken response) as [token|] eqn:Et.
  2: { rewrite (loop_last_page _ _ _ _ _ _ _ E Ei) by (left; done).
       exists [request_for pageToken].
       split; [done|]. by apply Forall_singleton. }
  destruct (decide (token = "")) as [->|Hne].
  { rewrite (loop_last_page _ _ _ _ _ _ _ E Ei) by (right; done).
    exists [request_for pageToken].
    split; [done|]. by apply Forall_singleton. }
  rewrite (loop_next_page _ _ _ _ _ _ _ _ E Ei Et Hne).
  destruct (IH (ids ++ item_names its)%list (Some token)
               (after w b [request_for pageToken])) as (evs & Etr & Hevs).
  { intros [= ->]. done. }
  exists (request_for pageToken :: evs). split.
  - rewrite Etr. rewrite after_trace. by rewrite <- app_assoc.
  - by apply Forall_cons.
Qed.

Lemma list_run fuel w b1 :
  authorize (backend w) = (Ok tt, b1) →
  GoogleCloudStorageHook.list fuel bucket versions maxResults prefix w
  = loop fuel bucket versions maxResults prefix [] None (after w b1 []).
Proof.
  intros Ea. unfold GoogleCloudStorageHook.list.
  by rewrite (get_conn_run w _ _ Ea).
Qed.

(** C5.  The service answers the first request with a page and a non-empty
    token, the request that echoes that token with a second page and a
    second non-empty token, and the request that echoes the second token
    with a third page and no token.  Then [list] returns, after three turns
    of its loop, the names of the three pages one after the other, in the
    order the service gave them; and the requests it made are exactly those
    three: one without a cursor, one with the first token, one with the
    second. *)
Theorem list_three_pages fuel w b0 b1 b2 b3 its1 its2 its3 token1 token2 :
  authorize (backend w) = (Ok tt, b0) →
  svc_list bucket versions maxResults None prefix b0
    = (Ok (ListResponse (Some its1) (Some token1)), b1) →
  token1 ≠ "" →
  svc_list bucket versions maxResults (Some token1) prefix b1
    = (Ok (ListResponse (Some its2) (Some token2)), b2) →
  token2 ≠ "" →
  svc_list bucket versions maxResults (Some token2) prefix b2
    = (Ok (ListResponse (Some its3) None), b3) →
  (3 ≤ fuel)%nat →
  GoogleCloudStorageHook.list fuel bucket versions maxResults prefix w
  = (Some (Ok (item_names its1 ++ item_names its2 ++ item_names its3)%list),
     after w b3 [request_for None;
                 request_for (Some token1);
                 request_for (Some token2)]).
Proof.
  intros Ea E1 Hne1 E2 Hne2 E3 Hfuel.
  destruct fuel as [|[|[|fuel]]]; [lia..|].
  rewrite (list_run _ _ _ Ea).
  rewrite (loop_next_page _ _ _ (after w b0 []) _ _ _ _ E1 eq_refl eq_refl Hne1).
  rewrite (loop_next_page _ _ _ (after _ b1 _) _ _ _ _ E2 eq_refl eq_refl Hne2).
  rewrite (loop_last_page _ _ _ (after _ b2 _) _ _ _ E3 eq_refl (or_introl eq_refl)).
  rewrite !after_after. simpl. by rewrite <- app_assoc.
Qed.

(** C6.  A page without an [items] field ends the loop: it returns what it
    had accumulated, raises nothing, and that page's request is the last.
    In particular, when the first response has no [items] field, [list]
    returns the empty sequence and has made exactly one request. *)
Theorem list_stops_without_items fuel w b response :
  items response = None →
  (∀ ids pageToken,
     svc_list bucket versions maxResults pageToken prefix (backend w)
       = (Ok response, b) →
     loop (S fuel) bucket versions maxResults prefix ids pageToken w
     = (Some (Ok ids), after w b [request_for pageToken])) ∧
  (∀ b0,
     authorize (backend w) = (Ok tt, b0) →
     svc_list bucket versions maxResults None prefix b0 = (Ok response, b) →
     GoogleCloudStorageHook.list (S fuel) bucket versions maxResults prefix w
     = (Some (Ok []), after w b [request_for None])).
Proof.
  intros Ei. split.
  - intros ids pageToken E. by apply (loop_no_items _ _ _ _ _ _ E).
  - intros b0 Ea E. rewrite (list_run _ _ _ Ea).
    rewrite (loop_no_items _ _ _ (after w b0 []) _ _ E Ei).
    by rewrite after_after.
Qed.

(** C7.  A page whose [nextPageToken] is absent, or present and empty, is
    the last one: the loop returns with that page's names added and makes no
    further request.  And whatever the service answers, for however long
    the loop runs, no request that [list] makes carries the empty string as
    its cursor. *)
Theorem list_never_sends_empty_cursor fuel w :
  (∀ ids pageToken b response,
     svc_list bucket versions maxResults pageToken prefix (backend w)
       = (Ok response, b) →
     nextPageToken response = None ∨ nextPageToken response = Some "" →
     loop (S fuel) bucket versions maxResults prefix ids pageToken w
     = (Some (Ok (ids ++ item_names (default [] (items response)))%list),
        after w b [request_for pageToken])) ∧
  (∃ evs,
     trace (GoogleCloudStorageHook.list fuel bucket versions maxResults prefix w).2
     = (trace w ++ evs)%list ∧
     Forall (λ ev, ¬ empty_cursor ev) evs).
Proof.
  split.
  - intros ids pageToken b response E Et.
    destruct (items response) as [its|] eqn:Ei; simpl.
    + by apply (loop_last_page _ _ _ _ _ _ _ E Ei).
    + rewrite app_nil_r. by apply (loop_no_items _ _ _ _ _ _ E).
  - destruct (authorize (backend w)) as [[[]|e] b0] eqn:Ea.
    + rewrite (list_run _ _ _ Ea).
      destruct (loop_cursors fuel [] None (after w b0 [])) as (evs & Etr & Hevs);
        [done|].
      exists evs. split; [|done].
      rewrite Etr, after_trace. by rewrite app_nil_r.
    + exists []. unfold GoogleCloudStorageHook.list.
      rewrite (get_conn_run w _ _ Ea). simpl.
      split; [reflexivity|done].
Qed.

End Listing.

(** ** The statements at concrete inputs *)

(** An object updated at noon UTC, checked against the naive threshold of
    that same noon: not updated after it. *)
Lemma is_updated_after_strictly_later_witness :
  let noon := "2016-03-01T12:00:00Z" in
  let svc := with_get (Ok {[ "updated" := noon ]}) quiet in
  let ts := mkDatetime 1456833600000000 None in
  authorize (backend (fresh svc)) = (Ok tt, svc) ∧
  svc_get "bucket" "report.csv" svc = (Ok {[ "updated" := noon ]}, svc) ∧
  (GoogleCloudStorageHook.is_updated_after parse_known "bucket" "report.csv" ts
     (fresh svc)).1 = Ok false.
Proof.
  intros noon svc ts.
  assert (Ea : authorize (backend (fresh svc)) = (Ok tt, svc)) by reflexivity.
  assert (Eg : svc_get "bucket" "report.csv" svc
               = (Ok {[ "updated" := noon ]}, svc)) by reflexivity.
  split; [exact Ea|]. split; [exact Eg|].
  destruct (is_updated_after_strictly_later parse_known _ _ ts _ _ _ _ Ea Eg)
    as (_ & _ & _ & Hcmp).
  destruct (Hcmp {[ "updated" := noon ]} noon
                 (mkDatetime 1456833600000000 (Some 0)) 0) as [_ Heq];
    [reflexivity | vm_compute; reflexivity | reflexivity | reflexivity |].
  apply Heq. reflexivity.
Defined.

(** Five objects over three pages. *)
Lemma list_three_pages_witness :
  let p1 := page ["a"; "b"] (Some "t1") in
  let p2 := page ["c"] (Some "t2") in
  let p3 := page ["d"; "e"] None in
  let svc := with_pages [p1; p2; p3] quiet in
  GoogleCloudStorageHook.list 3 "bucket" None None (Some "logs/") (fresh svc)
  = (Some (Ok ["a"; "b"; "c"; "d"; "e"]),
     after (fresh svc) quiet
       [page_request "bucket" None None (Some "logs/") None;
        page_request "bucket" None None (Some "logs/") (Some "t1");
        page_request "bucket" None None (Some "logs/") (Some "t2")]).
Proof.
  intros p1 p2 p3 svc.
  rewrite (list_three_pages "bucket" None None (Some "logs/") 3 (fresh svc)
             svc (with_pages [p2; p3] quiet) (with_pages [p3] quiet) quiet
             ((λ n, Some {[ "name" := n ]}) <$> ["a"; "b"])
             ((λ n, Some {[ "name" := n ]}) <$> ["c"])
             ((λ n, Some {[ "name" := n ]}) <$> ["d"; "e"])
             "t1" "t2");
    [|reflexivity|reflexivity|discriminate|reflexivity|discriminate
     |reflexivity|lia].
  vm_compute. reflexivity.
Defined.

(** A prefix that matches nothing: one request, no names. *)
Lemma list_stops_without_items_witness :
  let svc := with_pages [Ok (ListResponse None None)] quiet in
  GoogleCloudStorageHook.list 1 "bucket" None None (Some "nothing/") (fresh svc)
  = (Some (Ok []),
     after (fresh svc) quiet
       [page_request "bucket" None None (Some "nothing/") None]).
Proof.
  intros svc.
  destruct (list_stops_without_items "bucket" None None (Some "nothing/") 0
              (fresh svc) quiet (ListResponse None None) eq_refl) as [_ Hlist].
  apply (Hlist svc); reflexivity.
Defined.

(** A first page with an empty token, and a second page the service would
    have served: the loop stops after the first. *)
Lemma list_never_sends_empty_cursor_witness :
  let p1 := page ["a"] (Some "") in
  let p2 := page ["b"] None in
  let svc := with_pages [p1; p2] quiet in
  GoogleCloudStorageHook.list_loop 4 "bucket" None None None [] None (fresh svc)
  = (Some (Ok ["a"]),
     after (fresh svc) (with_pages [p2] quiet)
       [page_request "bucket" None None None None]).
Proof.
  intros p1 p2 svc.
  destruct (list_never_sends_empty_cursor "bucket" None None None 3 (fresh svc))
    as [Hlast _].
  rewrite (Hlast [] None (with_pages [p2] quiet)
                 (ListResponse (Some [Some {[ "name" := "a" ]}]) (Some "")));
    [|reflexivity|right; reflexivity].
  vm_compute. reflexivity.
Defined.

(** Downloading an object the service does not have. *)
Lemma download_propagates_every_failure_witness :
  let svc := with_get_media (Raise (HttpError "404")) quiet in
  GoogleCloudStorageHook.download "bucket" "report.csv" (Some "/tmp/out")
    (fresh svc)
  = (Raise (HttpError "404"),
     after (fresh svc) svc [Sent (ObjectsGetMedia "bucket" "report.csv")]).
Proof.
  intros svc.
  apply (download_propagates_every_failure "bucket" "report.csv"
           (Some "/tmp/out") (fresh svc) svc svc (HttpError "404"));
    reflexivity.
Defined.

(** Downloading text with the empty string as destination. *)
Lemma download_empty_path_writes_nothing_witness :
  let svc := with_get_media (Ok (PText "a,b")) quiet in
  GoogleCloudStorageHook.download "bucket" "report.csv" (Some "") (fresh svc)
  = (Ok (PText "a,b"),
     after (fresh svc) svc [Sent (ObjectsGetMedia "bucket" "report.csv")]).
Proof.
  intros svc.
  apply (download_empty_path_writes_nothing "bucket" "report.csv" (fresh svc)
           svc svc (PText "a,b")); reflexivity.
Defined.

(** The local file [/tmp/report.csv] goes up to the bucket and comes back. *)
Lemma upload_download_round_trip_witness :
  let w := fresh one_empty_bucket in
  let w' := (GoogleCloudStorageHook.upload "bucket" "report.csv"
               "/tmp/report.csv" "text/csv" w).2 in
  files (backend w) !! "/tmp/report.csv" = Some [Byte.x61; Byte.x2c; Byte.x62] ∧
  (GoogleCloudStorageHook.download "bucket" "report.csv" None w').1
  = Ok (PBytes [Byte.x61; Byte.x2c; Byte.x62]).
Proof.
  intros w w'.
  assert (Ef : files (backend w) !! "/tmp/report.csv"
               = Some [Byte.x61; Byte.x2c; Byte.x62])
    by (vm_compute; reflexivity).
  split; [exact Ef|].
  apply (upload_download_round_trip "bucket" "report.csv" "/tmp/report.csv"
           "text/csv" _ None w w' Ef).
  vm_compute. reflexivity.
Defined.

(** * Further properties of the hook *)

(** ** Without a service object nothing is sent *)

Section Connection.
Context {B : Type} `{Backend B}.
Context (dateutil_parse : string → result datetime).
Implicit Types (w : World B) (b : B).

(** Every method calls [get_conn] before anything else and outside its
    [try].  When that call raises, the method raises the same exception and
    has sent no request and written no file; this holds for status ['404']
    too, which [exists], [is_updated_after] and [delete] absorb only when it
    comes from their own request. *)
Theorem get_conn_failure_is_raised_by_every_method w b1 e :
  authorize (backend w) = (Raise e, b1) →
  (∀ bucket object filename,
     GoogleCloudStorageHook.download bucket object filename w
     = (Raise e, after w b1 [])) ∧
  (∀ bucket object filename mime_type,
     GoogleCloudStorageHook.upload bucket object filename mime_type w
     = (Raise e, after w b1 [])) ∧
  (∀ bucket object,
     GoogleCloudStorageHook.exists_ bucket object w
     = (Raise e, after w b1 [])) ∧
  (∀ bucket object ts,
     GoogleCloudStorageHook.is_updated_after dateutil_parse bucket object ts w
     = (Raise e, after w b1 [])) ∧
  (∀ bucket object generation,
     GoogleCloudStorageHook.delete bucket object generation w
     = (Raise e, after w b1 [])) ∧
  (∀ fuel bucket versions maxResults prefix,
     GoogleCloudStorageHook.list fuel bucket versions maxResults prefix w
     = (Some (Raise e), after w b1 [])).
Proof.
  intros Ea. pose proof (get_conn_run w _ _ Ea) as Ec.
  repeat split; intros.
  - unfold GoogleCloudStorageHook.download.
    unfold mbind at 1. unfold M_bind at 1. by rewrite Ec.
  - unfold GoogleCloudStorageHook.upload.
    unfold mbind at 1. unfold M_bind at 1. by rewrite Ec.
  - unfold GoogleCloudStorageHook.exists_.
    unfold mbind at 1. unfold M_bind at 1. by rewrite Ec.
  - unfold GoogleCloudStorageHook.is_updated_after.
    unfold mbind at 1. unfold M_bind at 1. by rewrite Ec.
  - unfold GoogleCloudStorageHook.delete.
    unfold mbind at 1. unfold M_bind at 1. by rewrite Ec.
  - unfold GoogleCloudStorageHook.list. by rewrite Ec.
Qed.

End Connection.

(** ** [upload] *)

Section Upload.
Context {B : Type} `{Backend B}.
Implicit Types (w : World B) (b : B).

(** When the local file cannot be read, [upload] raises the error of the
    read and sends no request: [MediaFileUpload] comes before the insert. *)
Theorem upload_unreadable_file_sends_nothing bucket object filename mime_type
    w b1 b2 e :
  authorize (backend w) = (Ok tt, b1) →
  file_read filename b1 = (Raise e, b2) →
  GoogleCloudStorageHook.upload bucket object filename mime_type w
  = (Raise e, after w b2 []).
Proof.
  intros Ea Er. unfold GoogleCloudStorageHook.upload. run_hook.
  rewrite Ea. simpl. rewrite Er. simpl. by rewrite app_nil_r.
Qed.

(** When the local file is read, [upload] sends exactly one request, the
    insert of the file's bytes under the name [object] with the MIME type
    given; it returns [None] when the insert succeeds and raises whatever the
    insert raised otherwise, no status being absorbed. *)
Theorem upload_sends_one_insert bucket object filename mime_type w b1 b2 b3
    body (out : result resource) :
  authorize (backend w) = (Ok tt, b1) →
  file_read filename b1 = (Ok body, b2) →
  svc_insert bucket object (MediaFileUpload_ body mime_type) b2 = (out, b3) →
  GoogleCloudStorageHook.upload bucket object filename mime_type w
  = (match out with Ok _ => Ok tt | Raise e => Raise e end,
     after w b3
       [Sent (ObjectsInsert bucket object (MediaFileUpload_ body mime_type))]).
Proof.
  intros Ea Er Ei. unfold GoogleCloudStorageHook.upload. run_hook.
  rewrite Ea. simpl. rewrite Er. simpl. rewrite Ei. by destruct out.
Qed.

End Upload.

(** ** The three status-aware methods side by side *)

Section Readers.
Context {B : Type} `{Backend B}.
Context (dateutil_parse : string → result datetime).
Implicit Types (w : World B) (b : B) (ts : datetime).

(** The world [is_updated_after] leaves: parsing and comparing touch
    nothing. *)
Lemma is_updated_after_world bucket object ts w b1 b2 (out : result resource) :
  authorize (backend w) = (Ok tt, b1) →
  svc_get bucket object b1 = (out, b2) →
  (GoogleCloudStorageHook.is_updated_after dateutil_parse bucket object ts w).2
  = after w b2 [Sent (ObjectsGet bucket object)].
Proof.
  intros Ea Eg. unfold GoogleCloudStorageHook.is_updated_after. run_hook.
  rewrite Ea. simpl. rewrite Eg. simpl.
  repeat (case_match; simpl in *; simplify_eq; try done).
Qed.

Lemma is_updated_after_failed bucket object ts w b1 b2 e :
  authorize (backend w) = (Ok tt, b1) →
  svc_get bucket object b1 = (Raise e, b2) →
  GoogleCloudStorageHook.is_updated_after dateutil_parse bucket object ts w
  = (absorb_404 (A:=resource) (Raise e),
     after w b2 [Sent (ObjectsGet bucket object)]).
Proof.
  intros Ea Eg.
  unfold GoogleCloudStorageHook.is_updated_after. run_hook.
  rewrite Ea. simpl. rewrite Eg. simpl.
  destruct e as [status|cls]; simpl; [|done].
  destruct (decide (status = "404")) as [->|Hne]; [done|].
  rewrite (bool_decide_eq_true_2 _ Hne), (bool_decide_eq_false_2 _ Hne). done.
Qed.

Lemma readers_without_conn bucket object ts w b1 e :
  authorize (backend w) = (Raise e, b1) →
  (GoogleCloudStorageHook.is_updated_after dateutil_parse bucket object ts w).1
  = Raise e ∧
  (GoogleCloudStorageHook.exists_ bucket object w).1 = Raise e.
Proof.
  intros Ea. pose proof (get_conn_run w _ _ Ea) as Ec. split.
  - unfold GoogleCloudStorageHook.is_updated_after.
    unfold mbind at 1. unfold M_bind at 1. by rewrite Ec.
  - unfold GoogleCloudStorageHook.exists_.
    unfold mbind at 1. unfold M_bind at 1. by rewrite Ec.
Qed.

(** Whatever the service answers, [exists] and [is_updated_after] send the
    one metadata GET of (bucket, object) and [delete] the one delete call,
    with the generation as given; none of them sends anything else or writes
    a file, and the backend is left as that one call left it. *)
Theorem status_aware_methods_send_one_request bucket object w b1 :
  authorize (backend w) = (Ok tt, b1) →
  (∀ out b2,
     svc_get bucket object b1 = (out, b2) →
     (GoogleCloudStorageHook.exists_ bucket object w).2
     = after w b2 [Sent (ObjectsGet bucket object)] ∧
     (∀ ts,
        (GoogleCloudStorageHook.is_updated_after dateutil_parse bucket object
           ts w).2
        = after w b2 [Sent (ObjectsGet bucket object)])) ∧
  (∀ generation out b2,
     svc_delete bucket object generation b1 = (out, b2) →
     (GoogleCloudStorageHook.delete bucket object generation w).2
     = after w b2 [Sent (ObjectsDelete bucket object generation)]).
Proof.
  intros Ea. split.
  - intros out b2 Eg. split.
    + by rewrite (exists_run _ _ _ _ _ _ Ea Eg).
    + intros ts. exact (is_updated_after_world _ _ ts _ _ _ _ Ea Eg).
  - intros generation out b2 Ed.
    by rewrite (delete_run _ _ _ _ _ _ _ Ea Ed).
Qed.

(** On a metadata GET that fails, [is_updated_after] does exactly what
    [exists] does: both answer [False] on status ['404'] and both raise the
    failure otherwise. *)
Theorem is_updated_after_fails_like_exists bucket object ts w b1 b2 e :
  authorize (backend w) = (Ok tt, b1) →
  svc_get bucket object b1 = (Raise e, b2) →
  GoogleCloudStorageHook.is_updated_after dateutil_parse bucket object ts w
  = GoogleCloudStorageHook.exists_ bucket object w.
Proof.
  intros Ea Eg. rewrite (exists_run _ _ _ _ _ _ Ea Eg).
  exact (is_updated_after_failed _ _ _ _ _ _ _ Ea Eg).
Qed.

(** An object found to be updated after some instant exists; an object
    that does not exist is not updated after any instant. *)
Theorem updated_after_implies_exists bucket object ts w :
  ((GoogleCloudStorageHook.is_updated_after dateutil_parse bucket object ts w).1
   = Ok true →
   (GoogleCloudStorageHook.exists_ bucket object w).1 = Ok true) ∧
  ((GoogleCloudStorageHook.exists_ bucket object w).1 = Ok false →
   (GoogleCloudStorageHook.is_updated_after dateutil_parse bucket object ts w).1
   = Ok false).
Proof.
  destruct (authorize (backend w)) as [[[]|e] b1] eqn:Ea.
  2: { destruct (readers_without_conn bucket object ts w b1 e Ea) as [-> ->].
       by split. }
  destruct (svc_get bucket object b1) as [[response|e] b2] eqn:Eg.
  - rewrite (exists_run _ _ _ _ _ _ Ea Eg). simpl. by split.
  - rewrite (is_updated_after_failed _ _ _ _ _ _ _ Ea Eg).
    rewrite (exists_run _ _ _ _ _ _ Ea Eg). by split.
Qed.

End Readers.

(** ** [is_updated_after]: what is raised, and how the answer moves with the
    threshold *)

Section Threshold.
Context {B : Type} `{Backend B}.
Context (dateutil_parse : string → result datetime).
Implicit Types (w : World B) (b : B) (ts : datetime).

(** The parse and the comparison stand inside the [try], but the handler
    only takes [HttpError]: when the [updated] text does not parse, the
    parser's exception leaves [is_updated_after]; when it parses to a
    timestamp without timezone, the comparison with the threshold, which is
    aware by then, raises [TypeError], and that leaves it too.  Neither is
    turned into [False]. *)
Theorem is_updated_after_raises_on_bad_timestamp bucket object ts w b1 b2
    response text :
  authorize (backend w) = (Ok tt, b1) →
  svc_get bucket object b1 = (Ok response, b2) →
  response !! "updated" = Some text →
  (∀ cls, dateutil_parse text = Raise (PyError cls) →
     (GoogleCloudStorageHook.is_updated_after dateutil_parse bucket object ts w).1
     = Raise (PyError cls)) ∧
  (∀ updated, dateutil_parse text = Ok updated → tzinfo updated = None →
     (GoogleCloudStorageHook.is_updated_after dateutil_parse bucket object ts w).1
     = Raise (PyError "TypeError")).
Proof.
  intros Ea Eg Eu. split.
  - intros cls Ep. rewrite (is_updated_after_step _ _ _ _ _ _ Ea).
    run_hook. rewrite Eg. simpl. by rewrite Eu, Ep.
  - intros updated Ep Et.
    exact (is_updated_after_naive_updated dateutil_parse _ _ ts _ _ _ _ _ _
             Ea Eg Eu Ep Et).
Qed.

(** The answer can only go from [True] to [False] as the threshold moves
    later: an object updated after an instant is updated after every earlier
    one, a naive threshold being read as UTC. *)
Theorem is_updated_after_earlier_threshold bucket object ts1 ts2 w :
  (instant_assuming_utc ts1 ≤ instant_assuming_utc ts2)%Z →
  (GoogleCloudStorageHook.is_updated_after dateutil_parse bucket object ts2 w).1
  = Ok true →
  (GoogleCloudStorageHook.is_updated_after dateutil_parse bucket object ts1 w).1
  = Ok true.
Proof.
  intros Hle. unfold instant_assuming_utc in Hle.
  unfold GoogleCloudStorageHook.is_updated_after. run_hook.
  destruct (authorize (backend w)) as [[[]|e] b1]; simpl; [|done].
  destruct (svc_get bucket object b1) as [[response|[status|cls]] b2]; simpl.
  - destruct (response !! "updated") as [text|]; simpl; [|done].
    destruct (dateutil_parse text) as [updated|[status|cls]]; simpl.
    + unfold datetime_gt.
      destruct (tzinfo updated) as [offset|];
        destruct (tzinfo ts1) as [o1|] eqn:E1;
        destruct (tzinfo ts2) as [o2|] eqn:E2;
        simpl in *; rewrite ?E1, ?E2; simpl;
        repeat case_bool_decide; try done; unfold tzutc in *; lia.
    + by case_bool_decide.
    + done.
  - by case_bool_decide.
  - done.
Qed.

End Threshold.

(** ** [list] over any number of pages *)

Section Crawl.
Context {B : Type} `{Backend B}.
Context (bucket : string) (versions : option bool) (maxResults : option Z)
        (prefix : option string).
Implicit Types (w : World B) (b : B) (ids : list string)
               (its : list (option resource)) (pageToken : option string)
               (steps : list turn).

Local Abbreviation loop := (GoogleCloudStorageHook.list_loop).
Local Abbreviation request_for pageToken :=
  (page_request bucket versions maxResults prefix pageToken).
Local Abbreviation requests steps :=
  (turn_requests bucket versions maxResults prefix steps).

Lemma after_nothing w : after w (backend w) [] = w.
Proof. destruct w as [b tr]. unfold after. simpl. by rewrite app_nil_r. Qed.

(** The loop takes one turn per page of a run and is then where the run
    ends, with the names of the run added and its requests on the trace. *)
Lemma loop_turns pageToken b steps pageToken' b' :
  turns bucket versions maxResults prefix pageToken b steps pageToken' b' →
  ∀ fuel ids w, backend w = b →
    loop (length steps + fuel) bucket versions maxResults prefix ids pageToken w
    = loop fuel bucket versions maxResults prefix
           (ids ++ turn_names steps)%list pageToken'
           (after w b' (requests steps)).
Proof.
  induction 1 as [pageToken b|pageToken b its token b1 steps pageToken' b'
                                E Hne _ IH];
    intros fuel ids w Eb.
  - subst b. unfold turn_names. simpl. by rewrite app_nil_r, after_nothing.
  - subst b. cbn [length Nat.add].
    rewrite (loop_next_page _ _ _ _ _ _ _ _ _ _ _ _ E eq_refl eq_refl Hne).
    rewrite (IH fuel _ (after w b1 [request_for pageToken]) eq_refl).
    rewrite after_after. unfold turn_names, turn_requests. simpl.
    by rewrite <- app_assoc.
Qed.

(** A run of any number of pages, closed by a page with items whose token is
    absent or empty: with a turn of the loop for each page, [list] returns
    the names of all the pages in the order served, and has sent one request
    per page, the first without a cursor and each following one with the
    token of the page before. *)
Theorem list_returns_all_pages fuel w b0 b b' steps pageToken response its :
  authorize (backend w) = (Ok tt, b0) →
  turns bucket versions maxResults prefix None b0 steps pageToken b →
  svc_list bucket versions maxResults pageToken prefix b = (Ok response, b') →
  items response = Some its →
  nextPageToken response = None ∨ nextPageToken response = Some "" →
  (length steps < fuel)%nat →
  GoogleCloudStorageHook.list fuel bucket versions maxResults prefix w
  = (Some (Ok (turn_names steps ++ item_names its)%list),
     after w b' (requests steps ++ [request_for pageToken])).
Proof.
  intros Ea Hrun E Ei Et Hfuel.
  replace fuel with (length steps + S (fuel - S (length steps)))%nat by lia.
  rewrite (list_run _ _ _ _ _ _ _ Ea).
  rewrite (loop_turns _ _ _ _ _ Hrun _ _ (after w b0 []) eq_refl).
  rewrite (loop_last_page _ _ _ _ _ _ _ (after _ b _) _ _ _ E Ei Et).
  by rewrite !after_after.
Qed.

(** [list] has no handler: when a page request fails, after any number of
    pages, [list] raises that failure, status ['404'] included, and the
    names gathered from the earlier pages are not returned. *)
Theorem list_raises_failure_of_any_page fuel w b0 b b' steps pageToken e :
  authorize (backend w) = (Ok tt, b0) →
  turns bucket versions maxResults prefix None b0 steps pageToken b →
  svc_list bucket versions maxResults pageToken prefix b = (Raise e, b') →
  (length steps < fuel)%nat →
  GoogleCloudStorageHook.list fuel bucket versions maxResults prefix w
  = (Some (Raise e), after w b' (requests steps ++ [request_for pageToken])).
Proof.
  intros Ea Hrun E Hfuel.
  replace fuel with (length steps + S (fuel - S (length steps)))%nat by lia.
  rewrite (list_run _ _ _ _ _ _ _ Ea).
  rewrite (loop_turns _ _ _ _ _ Hrun _ _ (after w b0 []) eq_refl).
  rewrite (loop_raise _ _ _ _ _ _ _ (after _ b _) _ _ E).
  by rewrite !after_after.
Qed.

(** The loop has no bound of its own: against a service that answers every
    request with items and a non-empty token, it is still running after any
    number of turns, and has sent a request in each of them. *)
Theorem list_runs_as_long_as_tokens_come fuel w b0 :
  authorize (backend w) = (Ok tt, b0) →
  (∀ pageToken b, ∃ its token b',
     svc_list bucket versions maxResults pageToken prefix b
       = (Ok (ListResponse (Some its) (Some token)), b') ∧ token ≠ "") →
  (GoogleCloudStorageHook.list fuel bucket versions maxResults prefix w).1 = None ∧
  length (trace (GoogleCloudStorageHook.list fuel bucket versions maxResults
                   prefix w).2)
  = (length (trace w) + fuel)%nat.
Proof.
  intros Ea Hmore. rewrite (list_run _ _ _ _ _ _ _ Ea).
  assert (∀ ids pageToken w',
            (loop fuel bucket versions maxResults prefix ids pageToken w').1 = None ∧
            length (trace (loop fuel bucket versions maxResults prefix ids
                             pageToken w').2)
            = (length (trace w') + fuel)%nat) as Hloop.
  { induction fuel as [|fuel IH]; intros ids pageToken w'.
    - simpl. split; [done|lia].
    - destruct (Hmore pageToken (backend w')) as (its & token & b' & E & Hne).
      rewrite (loop_next_page _ _ _ _ _ _ _ _ _ _ _ _ E eq_refl eq_refl Hne).
      destruct (IH (ids ++ item_names its)%list (Some token)
                   (after w' b' [request_for pageToken])) as [-> ->].
      split; [done|]. rewrite after_trace, length_app. simpl. lia. }
  destruct (Hloop [] None (after w b0 [])) as [-> ->].
  split; [done|]. by rewrite after_trace, app_nil_r.
Qed.

(** Whatever the service answers and however the listing ends, what [list]
    adds to the trace are page requests for the bucket and filters it was
    given, at most one per turn, the first of them without a cursor: it
    sends no other kind of request and writes no file. *)
Theorem list_only_sends_page_requests fuel w :
  ∃ evs,
    trace (GoogleCloudStorageHook.list fuel bucket versions maxResults prefix w).2
    = (trace w ++ evs)%list ∧
    Forall (λ ev, ∃ pageToken, ev = request_for pageToken) evs ∧
    (length evs ≤ fuel)%nat ∧
    (evs = [] ∨ ∃ rest, evs = request_for None :: rest).
Proof.
  assert (∀ n ids pageToken w',
            ∃ evs,
              trace (loop n bucket versions maxResults prefix ids pageToken w').2
              = (trace w' ++ evs)%list ∧
              Forall (λ ev, ∃ pageToken, ev = request_for pageToken) evs ∧
              (length evs ≤ n)%nat ∧
              (evs = [] ∨ ∃ rest, evs = request_for pageToken :: rest)) as Hloop.
  { induction n as [|n IH]; intros ids pageToken w'.
    { exists []. simpl. rewrite app_nil_r. repeat split; auto. }
    assert (∃ evs : list event,
              (trace w' ++ [request_for pageToken])%list = (trace w' ++ evs)%list ∧
              Forall (λ ev, ∃ pageToken, ev = request_for pageToken) evs ∧
              (length evs ≤ S n)%nat ∧
              (evs = [] ∨ ∃ rest, evs = request_for pageToken :: rest)) as Hone.
    { exists [request_for pageToken]. repeat split.
      - apply Forall_singleton. by exists pageToken.
      - simpl. lia.
      - right. by exists []. }
    destruct (svc_list bucket versions maxResults pageToken prefix (backend w'))
      as [[response|e] b] eqn:E.
    2: { by rewrite (loop_raise _ _ _ _ _ _ _ _ _ _ E). }
    destruct (items response) as [its|] eqn:Ei.
    2: { by rewrite (loop_no_items _ _ _ _ _ _ _ _ _ _ E Ei). }
    destruct (nextPageToken response) as [token|] eqn:Et.
    2: { by rewrite (loop_last_page _ _ _ _ _ _ _ _ _ _ _ E Ei (or_introl Et)). }
    destruct (decide (token = "")) as [->|Hne].
    { by rewrite (loop_last_page _ _ _ _ _ _ _ _ _ _ _ E Ei (or_intror Et)). }
    rewrite (loop_next_page _ _ _ _ _ _ _ _ _ _ _ _ E Ei Et Hne).
    destruct (IH (ids ++ item_names its)%list (Some token)
                 (after w' b [request_for pageToken]))
      as (evs & Etr & Hevs & Hlen & _).
    exists (request_for pageToken :: evs). repeat split.
    - rewrite Etr, after_trace. by rewrite <- app_assoc.
    - apply Forall_cons. split; [by exists pageToken|done].
    - simpl. lia.
    - right. by exists evs. }
  destruct (authorize (backend w)) as [[[]|e] b0] eqn:Ea.
  - rewrite (list_run _ _ _ _ _ _ _ Ea).
    destruct (Hloop fuel [] None (after w b0 [])) as (evs & Etr & Hrest).
    exists evs. split; [|done]. rewrite Etr, after_trace. by rewrite app_nil_r.
  - exists []. unfold GoogleCloudStorageHook.list.
    rewrite (get_conn_run w _ _ Ea). simpl.
    split; [reflexivity|]. repeat split; auto. lia.
Qed.

Lemma item_names_length its : (length (item_names its) ≤ length its)%nat.
Proof.
  unfold item_names. induction its as [|item its IH]; [done|].
  cbn [omap list_omap length].
  destruct (item ≫= (.!! "name")); cbn [length]; lia.
Qed.

(** The names a page adds are those of its entries that are dicts with a
    [name] key, after the names already gathered; entries that are [null],
    empty, or without a name add nothing, and nothing already gathered is
    dropped or reordered. *)
Theorem append_names_keeps_and_adds ids its :
  (∃ added, GoogleCloudStorageHook.append_names ids its = (ids ++ added)%list ∧
            (length added ≤ length its)%nat ∧
            ∀ name, name ∈ added ↔
                    ∃ d : resource, Some d ∈ its ∧ d !! "name" = Some name) ∧
  GoogleCloudStorageHook.append_names ids (None :: its)
  = GoogleCloudStorageHook.append_names ids its ∧
  GoogleCloudStorageHook.append_names ids (Some ∅ :: its)
  = GoogleCloudStorageHook.append_names ids its.
Proof.
  split; [|split].
  - exists (item_names its). split; [apply append_names_spec|]. split.
    + apply item_names_length.
    + intros name. unfold item_names. rewrite list_elem_of_omap. split.
      * intros ([d|] & Hin & Hname); simpl in Hname; [|done]. by exists d.
      * intros (d & Hin & Hname). by exists (Some d).
  - by rewrite !append_names_spec.
  - rewrite !append_names_spec. unfold item_names. simpl.
    by rewrite lookup_empty.
Qed.

End Crawl.

(** ** The methods composed, against the in-memory store *)

Section Store.
Implicit Types (m : mem) (w : World mem) (content : list Byte.byte).

Lemma lookup_object_deleted m bucket object objects :
  <[bucket := base.delete object objects]> (buckets m) !! bucket
    ≫= (.!! object) = None.
Proof. rewrite lookup_insert_eq. simpl. by rewrite lookup_delete_eq. Qed.

(** Deleting an object that is there answers [True]; after that [exists]
    answers [False] for it, and so does a second [delete]: every method asks
    about the same (bucket, object). *)
Theorem delete_then_exists_is_false bucket object generation w objects content :
  buckets (backend w) !! bucket = Some objects →
  objects !! object = Some content →
  ∃ w1,
    GoogleCloudStorageHook.delete bucket object generation w = (Ok true, w1) ∧
    (GoogleCloudStorageHook.exists_ bucket object w1).1 = Ok false ∧
    (GoogleCloudStorageHook.delete bucket object generation w1).1 = Ok false.
Proof.
  intros Eb Eo. eexists. split; [|split].
  - unfold GoogleCloudStorageHook.delete. run_hook. unfold mem_delete.
    rewrite Eb, Eo. simpl. reflexivity.
  - unfold GoogleCloudStorageHook.exists_. run_hook. unfold mem_get. simpl.
    by rewrite lookup_object_deleted.
  - unfold GoogleCloudStorageHook.delete. run_hook. unfold mem_delete. simpl.
    rewrite lookup_insert_eq, lookup_delete_eq. done.
Qed.

(** After a successful [upload] to (bucket, object), [exists] answers [True]
    for it. *)
Theorem upload_then_exists_is_true bucket object filename mime_type w w' :
  GoogleCloudStorageHook.upload bucket object filename mime_type w = (Ok tt, w') →
  (GoogleCloudStorageHook.exists_ bucket object w').1 = Ok true.
Proof.
  intros Eu.
  destruct (upload_succeeded _ _ _ _ _ _ Eu) as (content & objects & _ & _ & ->).
  unfold GoogleCloudStorageHook.exists_. run_hook. unfold mem_get. simpl.
  rewrite lookup_insert_eq. simpl. by rewrite lookup_insert_eq.
Qed.

(** Copying through a local file: [download] of an object to a non-empty
    path, then [upload] of that path to another name in a bucket that
    exists, succeed, and the copy reads back as the original content. *)
Theorem download_then_upload_copies bucket object path bucket' object'
    mime_type w objects objects' content :
  buckets (backend w) !! bucket = Some objects →
  objects !! object = Some content →
  buckets (backend w) !! bucket' = Some objects' →
  path ≠ "" →
  ∃ w1 w2,
    GoogleCloudStorageHook.download bucket object (Some path) w
    = (Ok (PBytes content), w1) ∧
    GoogleCloudStorageHook.upload bucket' object' path mime_type w1
    = (Ok tt, w2) ∧
    (GoogleCloudStorageHook.download bucket' object' None w2).1
    = Ok (PBytes content).
Proof.
  intros Eb Eo Eb' Hp. eexists. eexists. split; [|split].
  - unfold GoogleCloudStorageHook.download.
    assert (truthy_filename (Some path) = true) as ->.
    { simpl. unfold truthy_str. by case_bool_decide. }
    run_hook. unfold mem_get_media. rewrite Eb. simpl. rewrite Eo. simpl.
    reflexivity.
  - unfold GoogleCloudStorageHook.upload. run_hook. unfold mem_read. simpl.
    rewrite lookup_insert_eq. simpl. unfold mem_insert. simpl. rewrite Eb'.
    simpl. reflexivity.
  - unfold GoogleCloudStorageHook.download. run_hook.
    unfold mem_get_media. simpl.
    rewrite lookup_insert_eq. simpl. by rewrite lookup_insert_eq.
Qed.

End Store.

(** ** The further statements at concrete inputs *)

(** The discovery document cannot be fetched: status 404 from [get_conn],
    which [exists] does not take for an absent object. *)
Lemma get_conn_failure_is_raised_by_every_method_witness :
  let svc := with_authorize (Raise (HttpError "404")) quiet in
  GoogleCloudStorageHook.exists_ "bucket" "report.csv" (fresh svc)
  = (Raise (HttpError "404"), after (fresh svc) svc []).
Proof.
  intros svc.
  destruct (get_conn_failure_is_raised_by_every_method parse_known (fresh svc)
              svc (HttpError "404")) as (_ & _ & Hexists & _); [reflexivity|].
  apply Hexists.
Defined.

Lemma upload_unreadable_file_sends_nothing_witness :
  let svc := with_read (Raise (PyError "IOError")) quiet in
  GoogleCloudStorageHook.upload "bucket" "report.csv" "/tmp/none" "text/csv"
    (fresh svc)
  = (Raise (PyError "IOError"), after (fresh svc) svc []).
Proof.
  intros svc.
  apply (upload_unreadable_file_sends_nothing "bucket" "report.csv" "/tmp/none"
           "text/csv" (fresh svc) svc svc (PyError "IOError")); reflexivity.
Defined.

(** Uploading into a bucket that does not exist. *)
Lemma upload_sends_one_insert_witness :
  let svc := with_insert (Raise (HttpError "404"))
               (with_read (Ok [Byte.x61]) quiet) in
  GoogleCloudStorageHook.upload "nowhere" "report.csv" "/tmp/report.csv"
    "text/csv" (fresh svc)
  = (Raise (HttpError "404"),
     after (fresh svc) svc
       [Sent (ObjectsInsert "nowhere" "report.csv"
                (MediaFileUpload_ [Byte.x61] "text/csv"))]).
Proof.
  intros svc.
  apply (upload_sends_one_insert "nowhere" "report.csv" "/tmp/report.csv"
           "text/csv" (fresh svc) svc svc svc [Byte.x61]
           (Raise (HttpError "404"))); reflexivity.
Defined.

Lemma status_aware_methods_send_one_request_witness :
  (GoogleCloudStorageHook.delete "bucket" "report.csv" (Some "7")
     (fresh quiet)).2
  = after (fresh quiet) quiet [Sent (ObjectsDelete "bucket" "report.csv" (Some "7"))].
Proof.
  destruct (status_aware_methods_send_one_request parse_known "bucket"
              "report.csv" (fresh quiet) quiet) as [_ Hdelete]; [reflexivity|].
  apply (Hdelete (Some "7") (Ok tt) quiet). reflexivity.
Defined.

Lemma is_updated_after_fails_like_exists_witness :
  let svc := with_get (Raise (HttpError "403")) quiet in
  GoogleCloudStorageHook.is_updated_after parse_known "bucket" "report.csv"
    (mkDatetime 0 None) (fresh svc)
  = GoogleCloudStorageHook.exists_ "bucket" "report.csv" (fresh svc).
Proof.
  intros svc.
  apply (is_updated_after_fails_like_exists parse_known "bucket" "report.csv"
           (mkDatetime 0 None) (fresh svc) svc svc (HttpError "403"));
    reflexivity.
Defined.

(** Updated at noon, asked about the epoch. *)
Lemma updated_after_implies_exists_witness :
  let svc := with_get (Ok {[ "updated" := "2016-03-01T12:00:00Z" ]}) quiet in
  (GoogleCloudStorageHook.exists_ "bucket" "report.csv" (fresh svc)).1 = Ok true.
Proof.
  intros svc.
  destruct (updated_after_implies_exists parse_known "bucket" "report.csv"
              (mkDatetime 0 None) (fresh svc)) as [Hexists _].
  apply Hexists. vm_compute. reflexivity.
Defined.

(** An [updated] text without its timezone. *)
Lemma is_updated_after_raises_on_bad_timestamp_witness :
  let svc := with_get (Ok {[ "updated" := "2016-03-01T12:00:00" ]}) quiet in
  (GoogleCloudStorageHook.is_updated_after parse_known "bucket" "report.csv"
     (mkDatetime 0 None) (fresh svc)).1
  = Raise (PyError "TypeError").
Proof.
  intros svc.
  destruct (is_updated_after_raises_on_bad_timestamp parse_known "bucket"
              "report.csv" (mkDatetime 0 None) (fresh svc) svc svc
              {[ "updated" := "2016-03-01T12:00:00" ]} "2016-03-01T12:00:00")
    as [_ Hnaive]; [reflexivity|reflexivity|vm_compute; reflexivity|].
  apply (Hnaive (mkDatetime 1456833600000000 None)); reflexivity.
Defined.

(** Updated after 11:00 at UTC+1 (10:00 UTC), hence after the naive 09:00. *)
Lemma is_updated_after_earlier_threshold_witness :
  let svc := with_get (Ok {[ "updated" := "2016-03-01T12:00:00Z" ]}) quiet in
  let nine := mkDatetime 1456822800000000 None in
  (GoogleCloudStorageHook.is_updated_after parse_known "bucket" "report.csv"
     nine (fresh svc)).1 = Ok true.
Proof.
  intros svc nine.
  apply (is_updated_after_earlier_threshold parse_known "bucket" "report.csv"
           nine (mkDatetime 1456830000000000 (Some 3600000000)) (fresh svc)).
  - vm_compute. discriminate.
  - vm_compute. reflexivity.
Defined.

(** Four pages, the last with an empty token. *)
Lemma list_returns_all_pages_witness :
  let p1 := page ["a"] (Some "t1") in
  let p2 := page [] (Some "t2") in
  let p3 := page ["b"; "c"] (Some "t3") in
  let p4 := page ["d"] (Some "") in
  let svc := with_pages [p1; p2; p3; p4] quiet in
  (GoogleCloudStorageHook.list 4 "bucket" None (Some 2) None (fresh svc)).1
  = Some (Ok ["a"; "b"; "c"; "d"]).
Proof.
  intros p1 p2 p3 p4 svc.
  assert (Hrun : turns "bucket" None (Some 2) None None svc
                   [(None, [Some {[ "name" := "a" ]}]);
                    (Some "t1", []);
                    (Some "t2", [Some {[ "name" := "b" ]};
                                 Some {[ "name" := "c" ]}])]
                   (Some "t3") (with_pages [p4] quiet)).
  { eapply turns_more; [reflexivity|discriminate|].
    eapply turns_more; [reflexivity|discriminate|].
    eapply turns_more; [reflexivity|discriminate|].
    apply turns_done. }
  rewrite (list_returns_all_pages "bucket" None (Some 2) None 4 (fresh svc)
             svc (with_pages [p4] quiet) quiet
             [(None, [Some {[ "name" := "a" ]}]);
              (Some "t1", []);
              (Some "t2", [Some {[ "name" := "b" ]};
                           Some {[ "name" := "c" ]}])]
             (Some "t3")
             (ListResponse (Some [Some {[ "name" := "d" ]}]) (Some ""))
             [Some {[ "name" := "d" ]}]);
    [|reflexivity|exact Hrun|reflexivity|reflexivity|right; reflexivity
     |simpl; lia].
  vm_compute. reflexivity.
Defined.

(** A page, then the service fails with status 500. *)
Lemma list_raises_failure_of_any_page_witness :
  let p1 := page ["a"] (Some "t1") in
  let svc := with_pages [p1; Raise (HttpError "500")] quiet in
  (GoogleCloudStorageHook.list 2 "bucket" None None None (fresh svc)).1
  = Some (Raise (HttpError "500")).
Proof.
  intros p1 svc.
  assert (Hrun : turns "bucket" None None None None svc
                   [(None, [Some {[ "name" := "a" ]}])]
                   (Some "t1") (with_pages [Raise (HttpError "500")] quiet)).
  { eapply turns_more; [reflexivity|discriminate|]. apply turns_done. }
  rewrite (list_raises_failure_of_any_page "bucket" None None None 2 (fresh svc)
             svc (with_pages [Raise (HttpError "500")] quiet) quiet
             [(None, [Some {[ "name" := "a" ]}])] (Some "t1")
             (HttpError "500"));
    [reflexivity|reflexivity|exact Hrun|reflexivity|simpl; lia].
Defined.

(** A thousand turns against the endless service. *)
Lemma list_runs_as_long_as_tokens_come_witness :
  (GoogleCloudStorageHook.list 1000 "bucket" None None None (fresh Endless)).1
  = None.
Proof.
  apply (list_runs_as_long_as_tokens_come "bucket" None None None 1000
           (fresh Endless) Endless); [reflexivity|].
  intros pageToken b. exists [], "more", b. split; [reflexivity|discriminate].
Defined.

Lemma delete_then_exists_is_false_witness :
  ∃ w1,
    GoogleCloudStorageHook.delete "bucket" "report.csv" None
      (fresh one_object_bucket) = (Ok true, w1) ∧
    (GoogleCloudStorageHook.exists_ "bucket" "report.csv" w1).1 = Ok false ∧
    (GoogleCloudStorageHook.delete "bucket" "report.csv" None w1).1 = Ok false.
Proof.
  apply (delete_then_exists_is_false "bucket" "report.csv" None
           (fresh one_object_bucket)
           {[ "report.csv" := [Byte.x61; Byte.x2c; Byte.x62] ]}
           [Byte.x61; Byte.x2c; Byte.x62]); vm_compute; reflexivity.
Defined.

Lemma upload_then_exists_is_true_witness :
  let w' := (GoogleCloudStorageHook.upload "bucket" "report.csv"
               "/tmp/report.csv" "text/csv" (fresh one_empty_bucket)).2 in
  (GoogleCloudStorageHook.exists_ "bucket" "report.csv" w').1 = Ok true.
Proof.
  intros w'.
  apply (upload_then_exists_is_true "bucket" "report.csv" "/tmp/report.csv"
           "text/csv" (fresh one_empty_bucket) w').
  vm_compute. reflexivity.
Defined.

Lemma download_then_upload_copies_witness :
  ∃ w1 w2,
    GoogleCloudStorageHook.download "bucket" "report.csv" (Some "/tmp/copy")
      (fresh one_object_bucket)
    = (Ok (PBytes [Byte.x61; Byte.x2c; Byte.x62]), w1) ∧
    GoogleCloudStorageHook.upload "bucket" "copy.csv" "/tmp/copy" "text/csv" w1
    = (Ok tt, w2) ∧
    (GoogleCloudStorageHook.download "bucket" "copy.csv" None w2).1
    = Ok (PBytes [Byte.x61; Byte.x2c; Byte.x62]).
Proof.
  apply (download_then_upload_copies "bucket" "report.csv" "/tmp/copy" "bucket"
           "copy.csv" "text/csv" (fresh one_object_bucket)
           {[ "report.csv" := [Byte.x61; Byte.x2c; Byte.x62] ]}
           {[ "report.csv" := [Byte.x61; Byte.x2c; Byte.x62] ]}
           [Byte.x61; Byte.x2c; Byte.x62]);
    [vm_compute; reflexivity..|discriminate].
Defined.
